(** * coc-deno: the command handlers of [src/commands.ts]

    A shallow embedding of the command handlers that bridge the editor and
    the Deno language server, followed by the properties of the handlers:
    the life cycle of the single test terminal, the construction of the
    test command line, the shape of the protocol requests and the
    TSServer conflict check.

    The handlers are asynchronous TypeScript functions.  They are embedded
    as computations in a state-and-exception monad over a [World]: the
    state of the editor host as the handlers can observe it, the module
    variable [terminal], and the history of every call the handlers made on
    a collaborator.  One invocation runs from its first statement to its
    last without another invocation in between. *)

From Stdlib Require Import Ascii String.
From stdpp Require Import base strings list gmap.

Set Warnings "-register-all".

(** ** JavaScript values

    Configuration values, request responses and array elements are
    untyped on the JavaScript side.  A number is kept as the text
    [Number.prototype.toString] gives for it, which is all the handlers
    ever do with one. *)

Inductive jsval : Type :=
| VUndefined
| VNull
| VBool (b : bool)
| VNum (repr : string)
| VStr (s : string)
| VArr (elems : list jsval)
| VObj (fields : list (string * jsval)).

(** [if (v)]: the values that count as true. *)
Definition truthy (v : jsval) : bool :=
  match v with
  | VUndefined | VNull => false
  | VBool b => b
  | VNum r => negb (bool_decide (r = "0") || bool_decide (r = "NaN"))
  | VStr s => negb (bool_decide (s = EmptyString))
  | VArr _ | VObj _ => true
  end.

(** [String(v)] and the conversion inside a template literal. *)
Fixpoint js_string (v : jsval) : string :=
  match v with
  | VUndefined => "undefined"
  | VNull => "null"
  | VBool true => "true"
  | VBool false => "false"
  | VNum r => r
  | VStr s => s
  | VArr l =>
      String.concat ","
        (map (fun x => match x with
                       | VUndefined | VNull => EmptyString
                       | _ => js_string x
                       end) l)
  | VObj _ => "[object Object]"
  end.

(** [Array.prototype.join]: [undefined] and [null] elements give the empty
    string, every other element its [String] conversion. *)
Definition js_join (sep : string) (l : list jsval) : string :=
  String.concat sep
    (map (fun x => match x with
                   | VUndefined | VNull => EmptyString
                   | _ => js_string x
                   end) l).

(** The double-quote and the line-feed characters. *)
Definition dquote : string := String "034"%char EmptyString.
Definition newline : ascii := "010"%char.

(** [s.split(c)] for a separator of one character: the pieces between the
    occurrences of [c], in order; a string without [c] is its only piece. *)
Fixpoint js_split (sep : ascii) (s : string) : list string :=
  match s with
  | EmptyString => [EmptyString]
  | String c s' =>
      if bool_decide (c = sep) then EmptyString :: js_split sep s'
      else match js_split sep s' with
           | [] => [String c EmptyString]
           | piece :: rest => String c piece :: rest
           end
  end.

(** [Array.prototype.includes] on an array of strings. *)
Definition includes (l : list string) (x : string) : bool :=
  bool_decide (x ∈ l).

(** ** Exceptions *)

Inductive exn : Type :=
| TypeError (msg : string)
| UriError (msg : string)
| HostError (msg : string).

Definition result (A : Type) : Type := exn + A.

(** ** What the module imports

    [Uri] is the editor host's URI class, [EXTENSION_NS] the constant of
    [./constants], and the three request descriptors those of
    [./lsp_extensions]; none of them is defined in [commands.ts]. *)

Record Uri : Type := mkUri {
  scheme : string;
  authority : string;
  path : string;
  query : string;
  fragment : string
}.

Record Imports : Type := mkImports {
  (** the configuration section of the extension *)
  EXTENSION_NS : string;
  (** [Uri.parse], which throws on a malformed URI *)
  Uri_parse : string -> result Uri;
  (** the [fsPath] getter, which depends on the platform *)
  Uri_fsPath : Uri -> string;
  (** the string iterator behind [[...s]]: the code points of [s] *)
  string_iterate : string -> list string
}.

Inductive Request : Type :=
| cacheReq (referrer : string) (uris : list string)
| reloadImportRegistriesReq
| virtualTextDocument (uri : string).

Record Position : Type := mkPosition { line : nat; character : nat }.
Record Range : Type := mkRange { range_start : Position; range_end : Position }.
Record Location : Type := mkLocation { loc_uri : string; loc_range : Range }.

Record LanguageClient : Type := mkClient { client_id : nat }.
Record ExtensionContext : Type := mkContext { context_id : nat }.

(** A terminal of the editor host, by the order of its creation. *)
Definition Terminal : Type := nat.

(** ** The calls on the collaborators *)

Inductive Event : Type :=
| EvGetConfiguration (ns : string)
| EvConfigGet (ns key : string)
| EvConfigHas (ns key : string)
| EvConfigUpdate (ns key : string) (v : jsval)
| EvGetCurrentState
| EvProgressBegin (title : string) (cancellable : bool)
| EvProgressEnd
| EvSendRequest (c : LanguageClient) (r : Request)
| EvShowPickerDialog (items : list string) (title : string)
| EvShowMessage (msg : string)
| EvEchoLines (lines : list string)
| EvExecuteCommand (cmd : string) (u : Uri) (p : Position) (ls : list Location)
| EvNvimCommand (cmd : string) (notify : bool)
| EvCreateTerminal (t : Terminal) (name cwd : string)
    (env : option (gmap string jsval))
| EvDispose (t : Terminal)
| EvSendText (t : Terminal) (text : string)
| EvClientStop (c : LanguageClient)
| EvClientStart (c : LanguageClient).

(** ** The world

    [Editor] is what the editor host and the user decide; [World] adds the
    module variable [terminal], the supply of terminals and the history,
    newest call first. *)

Record Editor : Type := mkEditor {
  (** the configuration store, by section and key *)
  ed_config : gmap (string * string) jsval;
  (** the ids of the installed extensions *)
  ed_extensions : list string;
  (** [workspace.root] *)
  ed_root : string;
  (** the URI of the active document, as [getCurrentState] resolves it *)
  ed_current : result string;
  (** the answer of the user to a picker; [None] when it is dismissed *)
  ed_picker : list string -> string -> result (option (list string));
  (** the answer of the language server to a request *)
  ed_respond : Request -> result jsval;
  (** whether the host can open a terminal *)
  ed_createTerminal : result unit
}.

Record World : Type := mkWorld {
  editor : Editor;
  terminal : option Terminal;
  next_terminal : Terminal;
  history : list Event
}.

Definition set_editor (e : Editor) (w : World) : World :=
  mkWorld e (terminal w) (next_terminal w) (history w).

Definition set_config (c : gmap (string * string) jsval) (e : Editor) : Editor :=
  mkEditor c (ed_extensions e) (ed_root e) (ed_current e) (ed_picker e)
    (ed_respond e) (ed_createTerminal e).

Definition set_terminal (t : option Terminal) (w : World) : World :=
  mkWorld (editor w) t (next_terminal w) (history w).

Definition set_next_terminal (n : Terminal) (w : World) : World :=
  mkWorld (editor w) (terminal w) n (history w).

Definition record (e : Event) (w : World) : World :=
  mkWorld (editor w) (terminal w) (next_terminal w) (e :: history w).

(** The world when the extension is loaded: [let terminal] is undefined and
    no call has been made. *)
Definition initial_world (e : Editor) : World := mkWorld e None 0 [].

(** ** The monad of the handlers *)

Definition M (A : Type) : Type := World -> result A * World.

Definition ret {A : Type} (a : A) : M A := fun w => (inr a, w).

Definition throw {A : Type} (e : exn) : M A := fun w => (inl e, w).

Definition bind {A B : Type} (m : M A) (k : A -> M B) : M B :=
  fun w =>
    match m w with
    | (inr a, w') => k a w'
    | (inl e, w') => (inl e, w')
    end.

Notation "'let*' x ':=' m 'in' k" := (bind m (fun x => k))
  (at level 10, x pattern, m at level 100, k at level 200).
Notation "m ';;' k" := (bind m (fun _ => k))
  (at level 100, k at level 200, right associativity).

Definition lift {A : Type} (r : result A) : M A := fun w => (r, w).

Definition ask {A : Type} (f : World -> A) : M A := fun w => (inr (f w), w).

Definition emit (e : Event) : M unit := fun w => (inr tt, record e w).

(** The outcome and the final world of a computation, and the calls it
    made, oldest first. *)
Definition outcome {A : Type} (m : M A) (w : World) : result A := fst (m w).
Definition after {A : Type} (m : M A) (w : World) : World := snd (m w).

(** ** The collaborators

    The editor host is not part of this repository.  Its interfaces are
    embedded as the spec describes them, and each call is recorded in the
    history. *)

(** Modelled from the spec: the configuration collaborator of the editor
    host, [get(key, default?) -> value], [has(key) -> bool] and
    [update(key, value)], namespaced by section.  A key is present when
    the store holds a value for it; [get] of an absent key is the default,
    or [undefined] without one; [update] writes the store that the next
    read sees. *)
Definition workspace_getConfiguration (ns : string) : M string :=
  emit (EvGetConfiguration ns) ;; ret ns.

Definition config_get (ns key : string) : M jsval :=
  emit (EvConfigGet ns key) ;;
  ask (fun w => default VUndefined (ed_config (editor w) !! (ns, key))).

Definition config_get_default (ns key : string) (d : jsval) : M jsval :=
  emit (EvConfigGet ns key) ;;
  ask (fun w => default d (ed_config (editor w) !! (ns, key))).

Definition config_has (ns key : string) : M bool :=
  emit (EvConfigHas ns key) ;;
  ask (fun w => bool_decide (is_Some (ed_config (editor w) !! (ns, key)))).

Definition config_update (ns key : string) (v : jsval) : M unit :=
  emit (EvConfigUpdate ns key v) ;;
  fun w =>
    (inr tt,
     set_editor (set_config (<[(ns, key) := v]> (ed_config (editor w)))
                   (editor w)) w).

(** Modelled from the spec: the workspace collaborator of the editor
    host, with the current document, the root path and the installed
    extensions. *)
Definition workspace_getCurrentState : M string :=
  emit EvGetCurrentState ;;
  let* r := ask (fun w => ed_current (editor w)) in
  lift r.

Definition workspace_root : M string := ask (fun w => ed_root (editor w)).

Definition extensions_all : M (list string) :=
  ask (fun w => ed_extensions (editor w)).

(** Modelled from the spec: the progress scope of the UI collaborator.
    The task runs once inside the scope, which is closed when the task
    settles, with a result or with an exception. *)
Definition window_withProgress {A : Type}
    (title : string) (cancellable : bool) (task : M A) : M A :=
  emit (EvProgressBegin title cancellable) ;;
  fun w =>
    match task w with
    | (r, w') => (r, record EvProgressEnd w')
    end.

(** Modelled from the spec: the analysis process client,
    [sendRequest(descriptor, payload) -> response], [stop] and [start]. *)
Definition client_sendRequest (c : LanguageClient) (r : Request) : M jsval :=
  emit (EvSendRequest c r) ;;
  let* a := ask (fun w => ed_respond (editor w) r) in
  lift a.

Definition client_stop (c : LanguageClient) : M unit := emit (EvClientStop c).
Definition client_start (c : LanguageClient) : M unit := emit (EvClientStart c).

(** Modelled from the spec: the picker, the message and the line echo of
    the UI collaborator, and the commands of the editor host. *)
Definition window_showPickerDialog (items : list string) (title : string)
    : M (option (list string)) :=
  emit (EvShowPickerDialog items title) ;;
  let* a := ask (fun w => ed_picker (editor w) items title) in
  lift a.

Definition window_showMessage (msg : string) : M unit :=
  emit (EvShowMessage msg).

Definition window_echoLines (lines : list string) : M unit :=
  emit (EvEchoLines lines).

Definition commands_executeCommand
    (cmd : string) (u : Uri) (p : Position) (ls : list Location) : M unit :=
  emit (EvExecuteCommand cmd u p ls).

Definition nvim_command (cmd : string) (notify : bool) : M unit :=
  emit (EvNvimCommand cmd notify).

(** Modelled from the spec: the terminal factory of the workspace
    collaborator, [createTerminal({name, cwd, env}) -> TerminalHandle].  A
    new terminal is one that no earlier call returned. *)
Definition workspace_createTerminal
    (name cwd : string) (env : option (gmap string jsval)) : M Terminal :=
  let* ok := ask (fun w => ed_createTerminal (editor w)) in
  lift ok ;;
  let* t := ask next_terminal in
  (fun w => (inr tt, set_next_terminal (S t) w)) ;;
  emit (EvCreateTerminal t name cwd env) ;;
  ret t.

Definition terminal_dispose (t : Terminal) : M unit := emit (EvDispose t).

Definition terminal_sendText (t : Terminal) (text : string) : M unit :=
  emit (EvSendText t text).

(** The module variable [let terminal: Terminal | undefined]. *)
Definition read_terminal : M (option Terminal) := ask terminal.
Definition write_terminal (t : option Terminal) : M unit :=
  fun w => (inr tt, set_terminal t w).

(** [[...v]]: the elements of an array, the code points of a string; any
    other configuration value is not iterable. *)
Definition js_spread (I : Imports) (v : jsval) : result (list jsval) :=
  match v with
  | VArr l => inr l
  | VStr s => inr (map VStr (string_iterate I s))
  | _ => inl (TypeError "object is not iterable")
  end.

(** ** The command handlers *)

Definition Callback : Type := M jsval.

Section Commands.

Context (I : Imports).

(** For the document active in the editor, tell the language server to
    cache the file and all of its dependencies (lines 36-55). *)
Definition cache (_context : ExtensionContext) (client : LanguageClient)
    : Callback :=
  let* document_uri := workspace_getCurrentState in
  window_withProgress "caching" true
    (client_sendRequest client (cacheReq document_uri [])).

(** Lines 168-175. *)
Definition checkTSServer : M unit :=
  let* tsserverConfig := workspace_getConfiguration "tsserver" in
  let* enable := config_get tsserverConfig "enable" in
  if truthy enable then
    config_update tsserverConfig "enable" (VBool false) ;;
    nvim_command "CocRestart" true
  else ret tt.

(** Lines 57-82. *)
Definition initializeWorkspace : Callback :=
  let title := "Initialize Deno Project" in
  let linting := "Enable Deno linting?" in
  let unstable := "Enable Deno unstable APIs?" in
  let prettier := "Disable coc-prettier for current project?" in
  let* all := extensions_all in
  let items :=
    if bool_decide ("coc-prettier" ∈ all)
    then [linting; unstable; prettier]
    else [linting; unstable] in
  let* settings := window_showPickerDialog items title in
  match settings with
  | None => ret VUndefined
  | Some settings =>
      let* config := workspace_getConfiguration (EXTENSION_NS I) in
      config_update config "enable" (VBool true) ;;
      config_update config "lint" (VBool (includes settings linting)) ;;
      config_update config "unstable" (VBool (includes settings unstable)) ;;
      (if includes settings prettier then
         let* prettierConfig := workspace_getConfiguration "prettier" in
         config_update prettierConfig "disableLanguages"
           (VArr [VStr "typescript"; VStr "javascript"])
       else ret tt) ;;
      window_showMessage "Deno is now setup in this workspace." ;;
      checkTSServer ;;
      ret VUndefined
  end.

(** Lines 84-96. *)
Definition showReferences
    (uri : string) (position : Position) (locations : list Location)
    : M unit :=
  if bool_decide (uri = EmptyString) then ret tt
  else
    let* u := lift (Uri_parse I uri) in
    commands_executeCommand "editor.action.showReferences" u position locations.

(** Open and display the virtual document with the status of the language
    server (lines 100-110).  [split] exists on a string only. *)
Definition status (_context : ExtensionContext) (client : LanguageClient)
    : Callback :=
  let* content := client_sendRequest client (virtualTextDocument "deno:/status.md") in
  let* lines :=
    match content with
    | VStr s => ret (js_split newline s)
    | _ => throw (TypeError "content.split is not a function")
    end in
  window_echoLines lines ;;
  ret VUndefined.

(** What lines 113-131 of [test] compute: the environment overlay, the
    executable and the argument list. *)
Record CommandLine : Type := mkCommandLine {
  cl_env : option (gmap string jsval);
  cl_bin : jsval;
  cl_args : list jsval
}.

(** Lines 112-139. *)
Definition test (uri name : string) : M unit :=
  let* config := workspace_getConfiguration (EXTENSION_NS I) in
  let* configured := config_get_default config "codeLens.testArgs" (VArr []) in
  let* testArgs := lift (js_spread I configured) in
  let* unstable := config_has config "unstable" in
  let testArgs := if unstable then testArgs ++ [VStr "--unstable"] else testArgs in
  let* importMap := config_has config "importMap" in
  let* testArgs :=
    if importMap then
      let* v := config_get config "importMap" in
      ret (testArgs ++ [VStr "--import-map"; VStr (js_string v)])
    else ret testArgs in
  let* cache := config_has config "cache" in
  let* env :=
    if cache then
      let* v := config_get config "cache" in
      ret (Some ({[ "DENO_DIR" := v ]} : gmap string jsval))
    else ret None in
  let* bin := config_get_default config "path" (VStr "deno") in
  let* u := lift (Uri_parse I uri) in
  let args :=
    [VStr "test"] ++ testArgs ++
    [VStr "--filter"; VStr (dquote +:+ name +:+ dquote); VStr (Uri_fsPath I u)] in
  let* live := read_terminal in
  match live with
  | Some t => terminal_dispose t ;; write_terminal None
  | None => ret tt
  end ;;
  let* cwd := workspace_root in
  let* created := workspace_createTerminal name cwd env in
  write_terminal (Some created) ;;
  let* stored := read_terminal in
  match stored with
  | Some t =>
      terminal_sendText t (js_string bin +:+ " " +:+ js_join " " args)
  | None => throw (TypeError "terminal is undefined")
  end.

(** Lines 141-148. *)
Definition welcome (_context : ExtensionContext) (_client : LanguageClient)
    : Callback :=
  ret VUndefined.

(** Lines 150-155. *)
Definition reloadImportRegistries
    (_context : ExtensionContext) (client : LanguageClient) : Callback :=
  client_sendRequest client reloadImportRegistriesReq.

(** Lines 157-165. *)
Definition restart (_context : ExtensionContext) (client : LanguageClient)
    : Callback :=
  client_stop client ;;
  client_start client ;;
  ret VUndefined.

End Commands.

(** ** The two halves of [test]

    [test_command] is lines 113-131 of [test], which read the configuration
    and build the argument list; [test_terminal] is lines 133-138, which
    replace the terminal and send the text.  [test] is the first followed
    by the second ([test_split] below). *)

Section TestHalves.

Context (I : Imports).

Definition test_command (uri name : string) : M CommandLine :=
  let* config := workspace_getConfiguration (EXTENSION_NS I) in
  let* configured := config_get_default config "codeLens.testArgs" (VArr []) in
  let* testArgs := lift (js_spread I configured) in
  let* unstable := config_has config "unstable" in
  let testArgs := if unstable then testArgs ++ [VStr "--unstable"] else testArgs in
  let* importMap := config_has config "importMap" in
  let* testArgs :=
    if importMap then
      let* v := config_get config "importMap" in
      ret (testArgs ++ [VStr "--import-map"; VStr (js_string v)])
    else ret testArgs in
  let* cache := config_has config "cache" in
  let* env :=
    if cache then
      let* v := config_get config "cache" in
      ret (Some ({[ "DENO_DIR" := v ]} : gmap string jsval))
    else ret None in
  let* bin := config_get_default config "path" (VStr "deno") in
  let* u := lift (Uri_parse I uri) in
  let args :=
    [VStr "test"] ++ testArgs ++
    [VStr "--filter"; VStr (dquote +:+ name +:+ dquote); VStr (Uri_fsPath I u)] in
  ret (mkCommandLine env bin args).

Definition test_terminal (name : string) (cl : CommandLine) : M unit :=
  let* live := read_terminal in
  match live with
  | Some t => terminal_dispose t ;; write_terminal None
  | None => ret tt
  end ;;
  let* cwd := workspace_root in
  let* created := workspace_createTerminal name cwd (cl_env cl) in
  write_terminal (Some created) ;;
  let* stored := read_terminal in
  match stored with
  | Some t =>
      terminal_sendText t
        (js_string (cl_bin cl) +:+ " " +:+ js_join " " (cl_args cl))
  | None => throw (TypeError "terminal is undefined")
  end.

End TestHalves.

(** ** Reading the history *)

(** The calls that create, dispose of or write to a terminal. *)
Definition terminal_event (e : Event) : bool :=
  match e with
  | EvCreateTerminal _ _ _ _ | EvDispose _ | EvSendText _ _ => true
  | _ => false
  end.

(** The calls that change something outside the module: a configuration
    write or a command of the editor host. *)
Definition effect_event (e : Event) : bool :=
  match e with
  | EvConfigUpdate _ _ _ | EvNvimCommand _ _ => true
  | _ => false
  end.

(** The terminals that were created and not disposed of since. *)
Fixpoint live (h : list Event) : list Terminal :=
  match h with
  | [] => []
  | EvCreateTerminal t _ _ _ :: h' => t :: live h'
  | EvDispose t :: h' => filter (fun x => x ≠ t) (live h')
  | _ :: h' => live h'
  end.

(** Every terminal a call ever returned. *)
Fixpoint created (h : list Event) : list Terminal :=
  match h with
  | [] => []
  | EvCreateTerminal t _ _ _ :: h' => t :: created h'
  | _ :: h' => created h'
  end.

(** The terminals that were disposed of. *)
Fixpoint disposed (h : list Event) : list Terminal :=
  match h with
  | [] => []
  | EvDispose t :: h' => t :: disposed h'
  | _ :: h' => disposed h'
  end.

(** [P] held after every call of the history, and before the first. *)
Fixpoint at_all_times (P : list Event -> Prop) (h : list Event) : Prop :=
  P h /\ match h with
         | [] => True
         | _ :: h' => at_all_times P h'
         end.

(** The calls a computation made from [w], oldest first. *)
Definition calls {A : Type} (m : M A) (w : World) : list Event :=
  rev (take (length (history (after m w)) - length (history w))
         (history (after m w))).

(** ** Sequences of test invocations

    Between two invocations the editor host may have changed in any way:
    each invocation comes with the [Editor] it finds. *)




(** ** A host for the examples

    File URIs without authority, query, fragment or escapes, on a POSIX
    platform, where [fsPath] is the path; strings of ASCII characters. *)

Fixpoint strip_prefix (p s : string) : option string :=
  match p, s with
  | EmptyString, _ => Some s
  | String a p', String b s' =>
      if bool_decide (a = b) then strip_prefix p' s' else None
  | String _ _, EmptyString => None
  end.

Fixpoint characters (s : string) : list string :=
  match s with
  | EmptyString => []
  | String c s' => String c EmptyString :: characters s'
  end.

Definition posix : Imports :=
  {| EXTENSION_NS := "deno";
     Uri_parse s :=
       match strip_prefix "file://" s with
       | Some p => inr (mkUri "file" EmptyString p EmptyString EmptyString)
       | None => inl (UriError "not a file URI")
       end;
     Uri_fsPath u := path u;
     string_iterate := characters |}.

Definition example_editor (cfg : gmap (string * string) jsval) : Editor :=
  {| ed_config := cfg;
     ed_extensions := [];
     ed_root := "/work";
     ed_current := inr "file:///x.ts";
     ed_picker _ _ := inr None;
     ed_respond _ := inr VNull;
     ed_createTerminal := inr tt |}.


(** ** Predicates on computations *)

(** [m], run from [w], ends with a run of [post]: some world [w1] that
    continues the history of [w] is taken by [post] to the world [m]
    ends in.  [checkTSServer] records at least two calls, so this says
    that the last calls of [m] are those of the check. *)
Definition finishes_with {A B : Type} (m : M A) (post : M B) (w : World) : Prop :=
  exists w1 q, history w1 = q ++ history w /\ after m w = after post w1.

(** [m] only reads: whatever its outcome, it leaves the editor, the
    module variable and the supply of terminals as they were, and the calls
    it adds to the history neither touch a terminal nor change anything. *)
Definition reads_only {A : Type} (m : M A) : Prop :=
  forall w, exists q,
    after m w = mkWorld (editor w) (terminal w) (next_terminal w) (q ++ history w)
    /\ Forall (fun e => terminal_event e = false /\ effect_event e = false) q.

(** The invariant of the terminal slot. *)
Record slot_invariant (w : World) : Prop := mkSlotInvariant {
  slot_live : live (history w) = option_list (terminal w);
  slot_created : Forall (fun t => t < next_terminal w) (created (history w));
  slot_disposed : Forall (fun t => t < next_terminal w) (disposed (history w));
  slot_fresh : forall t, terminal w = Some t -> t ∉ disposed (history w);
  slot_always : at_all_times (fun h => length (live h) <= 1) (history w)
}.

(** ** Worlds for the examples *)

(** [codeLens.testArgs] is [["--coverage"]] and [unstable] is [true]. *)
Definition coverage_config : gmap (string * string) jsval :=
  {[ ("deno", "codeLens.testArgs") := VArr [VStr "--coverage"];
     ("deno", "unstable") := VBool true ]}.

(** [unstable] is [false], as [initializeWorkspace] writes it when the
    user does not choose the unstable APIs. *)
Definition unstable_off_config : gmap (string * string) jsval :=
  {[ ("deno", "unstable") := VBool false ]}.

(** [codeLens.testArgs] is a number, which cannot be spread. *)
Definition malformed_config : gmap (string * string) jsval :=
  {[ ("deno", "codeLens.testArgs") := VNum "3" ]}.

(** [cache] is set. *)
Definition cache_config : gmap (string * string) jsval :=
  {[ ("deno", "cache") := VStr "/tmp/deno" ]}.

(** The TypeScript server is enabled. *)
Definition tsserver_config : gmap (string * string) jsval :=
  {[ ("tsserver", "enable") := VBool true ]}.


(** A world in which terminal [0] is live and stored. *)
Definition world_with_terminal (cfg : gmap (string * string) jsval) : World :=
  {| editor := example_editor cfg;
     terminal := Some 0;
     next_terminal := 1;
     history := [EvCreateTerminal 0 "my test" "/work" None] |}.

(** An editor whose user answers the picker with [answer]. *)
Definition picker_editor
    (cfg : gmap (string * string) jsval) (answer : option (list string))
    : Editor :=
  {| ed_config := cfg;
     ed_extensions := [];
     ed_root := "/work";
     ed_current := inr "file:///x.ts";
     ed_picker _ _ := inr answer;
     ed_respond _ := inr VNull;
     ed_createTerminal := inr tt |}.

(** An editor whose language server answers every request with [text]. *)
Definition status_editor (text : string) : Editor :=
  {| ed_config := ∅;
     ed_extensions := [];
     ed_root := "/work";
     ed_current := inr "file:///x.ts";
     ed_picker _ _ := inr None;
     ed_respond _ := inr (VStr text);
     ed_createTerminal := inr tt |}.

Definition three_lines : string :=
  "line1" +:+ String newline "line2" +:+ String newline "line3".

(** The character [c] occurs in [s]. *)
Fixpoint occurs (c : ascii) (s : string) : bool :=
  match s with
  | EmptyString => false
  | String a s' => bool_decide (a = c) || occurs c s'
  end.

(** The configuration writes and host commands among some calls. *)
Definition effects (l : list Event) : list Event := List.filter effect_event l.

(** The requests to the language server among some calls. *)
Fixpoint requests (l : list Event) : list (LanguageClient * Request) :=
  match l with
  | [] => []
  | EvSendRequest c r :: l' => (c, r) :: requests l'
  | _ :: l' => requests l'
  end.

(** Nothing is configured. *)
Definition empty_config : gmap (string * string) jsval := ∅.

(** ** The exported handlers, as the editor host invokes them

    [commands.ts] exports nine handlers.  The editor host may invoke them
    in any order, and may have changed in any way between two of them. *)

Inductive Command : Type :=
| CmdCache (ctx : ExtensionContext) (client : LanguageClient)
| CmdInitializeWorkspace
| CmdShowReferences (uri : string) (position : Position)
    (locations : list Location)
| CmdStatus (ctx : ExtensionContext) (client : LanguageClient)
| CmdTest (uri name : string)
| CmdWelcome (ctx : ExtensionContext) (client : LanguageClient)
| CmdReloadImportRegistries (ctx : ExtensionContext) (client : LanguageClient)
| CmdRestart (ctx : ExtensionContext) (client : LanguageClient)
| CmdCheckTSServer.

(** The world an invocation ends in. *)
Definition perform (I : Imports) (c : Command) (w : World) : World :=
  match c with
  | CmdCache ctx client => after (cache ctx client) w
  | CmdInitializeWorkspace => after (initializeWorkspace I) w
  | CmdShowReferences uri position locations =>
      after (showReferences I uri position locations) w
  | CmdStatus ctx client => after (status ctx client) w
  | CmdTest uri name => after (test I uri name) w
  | CmdWelcome ctx client => after (welcome ctx client) w
  | CmdReloadImportRegistries ctx client =>
      after (reloadImportRegistries ctx client) w
  | CmdRestart ctx client => after (restart ctx client) w
  | CmdCheckTSServer => after checkTSServer w
  end.

(** The calls an invocation makes, oldest first. *)
Definition calls_of (I : Imports) (c : Command) (w : World) : list Event :=
  match c with
  | CmdCache ctx client => calls (cache ctx client) w
  | CmdInitializeWorkspace => calls (initializeWorkspace I) w
  | CmdShowReferences uri position locations =>
      calls (showReferences I uri position locations) w
  | CmdStatus ctx client => calls (status ctx client) w
  | CmdTest uri name => calls (test I uri name) w
  | CmdWelcome ctx client => calls (welcome ctx client) w
  | CmdReloadImportRegistries ctx client =>
      calls (reloadImportRegistries ctx client) w
  | CmdRestart ctx client => calls (restart ctx client) w
  | CmdCheckTSServer => calls checkTSServer w
  end.

Definition is_test (c : Command) : bool :=
  match c with CmdTest _ _ => true | _ => false end.

(** The handlers that write the configuration. *)
Definition is_setup (c : Command) : bool :=
  match c with
  | CmdInitializeWorkspace | CmdCheckTSServer => true
  | _ => false
  end.

(** The handlers that talk to the language server. *)
Definition is_client (c : Command) : bool :=
  match c with
  | CmdCache _ _ | CmdStatus _ _ | CmdReloadImportRegistries _ _
  | CmdRestart _ _ => true
  | _ => false
  end.

Record Step : Type := mkStep {
  step_editor : Editor;
  step_command : Command
}.

Definition perform_all (I : Imports) (steps : list Step) (w : World) : World :=
  fold_left
    (fun w s => perform I (step_command s) (set_editor (step_editor s) w))
    steps w.

(** ** More ways of reading the history *)

(** The calls that read the configuration. *)
Definition config_read_event (e : Event) : bool :=
  match e with
  | EvGetConfiguration _ | EvConfigGet _ _ | EvConfigHas _ _ => true
  | _ => false
  end.

(** The calls on the language client. *)
Definition client_event (e : Event) : bool :=
  match e with
  | EvSendRequest _ _ | EvClientStop _ | EvClientStart _ => true
  | _ => false
  end.

(** Every disposal and every write was to a terminal live at that
    moment. *)
Fixpoint well_used (h : list Event) : Prop :=
  match h with
  | [] => True
  | e :: h' =>
      match e with
      | EvDispose t | EvSendText t _ => t ∈ live h'
      | _ => True
      end /\ well_used h'
  end.

(** [m] makes calls that satisfy [P] only, and leaves the module variable
    and the supply of terminals as they were. *)
Definition confined {A : Type} (P : Event -> Prop) (m : M A) : Prop :=
  forall w, exists q,
    history (after m w) = q ++ history w
    /\ Forall P q
    /\ terminal (after m w) = terminal w
    /\ next_terminal (after m w) = next_terminal w.

(** A call that neither touches a terminal nor changes anything outside
    the module. *)
Definition quiet_call (e : Event) : Prop :=
  terminal_event e = false /\ effect_event e = false.

(** [m] leaves the editor as it was. *)
Definition keeps_editor {A : Type} (m : M A) : Prop :=
  forall w, editor (after m w) = editor w.

(** What [join] makes of one element of the array. *)
Definition arg_text (v : jsval) : string :=
  match v with
  | VUndefined | VNull => EmptyString
  | _ => js_string v
  end.

(** The value can be spread: it is an array or a string. *)
Definition iterable (v : jsval) : bool :=
  match v with
  | VArr _ | VStr _ => true
  | _ => false
  end.

(** The number of occurrences of [c] in [s]. *)
Fixpoint count_char (c : ascii) (s : string) : nat :=
  match s with
  | EmptyString => 0
  | String a s' => (if bool_decide (a = c) then 1 else 0) + count_char c s'
  end.

(** ** More worlds for the examples *)

(** An editor whose host cannot open a terminal. *)
Definition no_terminal_editor (cfg : gmap (string * string) jsval) : Editor :=
  {| ed_config := cfg;
     ed_extensions := [];
     ed_root := "/work";
     ed_current := inr "file:///x.ts";
     ed_picker _ _ := inr None;
     ed_respond _ := inr VNull;
     ed_createTerminal := inl (HostError "cannot open a terminal") |}.

(** An editor without an active document and without a language server. *)
Definition offline_editor : Editor :=
  {| ed_config := ∅;
     ed_extensions := [];
     ed_root := "/work";
     ed_current := inl (HostError "no document");
     ed_picker _ _ := inl (HostError "no picker");
     ed_respond _ := inl (HostError "not connected");
     ed_createTerminal := inr tt |}.

(** An editor in which coc-prettier is installed and whose user answers
    the picker with [answer]. *)
Definition prettier_editor (answer : option (list string)) : Editor :=
  {| ed_config := tsserver_config;
     ed_extensions := ["coc-json"; "coc-prettier"];
     ed_root := "/work";
     ed_current := inr "file:///x.ts";
     ed_picker _ _ := inr answer;
     ed_respond _ := inr VNull;
     ed_createTerminal := inr tt |}.

(** [codeLens.testArgs] is the string [-A] and [importMap] is set. *)
Definition string_args_config : gmap (string * string) jsval :=
  {[ ("deno", "codeLens.testArgs") := VStr "-A";
     ("deno", "importMap") := VStr "./map.json" ]}.

(** The [enable] setting of the TypeScript server is the string [yes]. *)
Definition tsserver_yes_config : gmap (string * string) jsval :=
  {[ ("tsserver", "enable") := VStr "yes" ]}.

(** ** Properties *)

(** *** The monad *)

Lemma bind_assoc {A B C : Type} (m : M A) (f : A -> M B) (g : B -> M C) w :
  bind (bind m f) g w = bind m (fun x => bind (f x) g) w.
Proof. unfold bind. destruct (m w) as [[e|a] w']; reflexivity. Qed.

Lemma bind_ext {A B : Type} (m : M A) (f g : A -> M B) w :
  (forall a w', f a w' = g a w') -> bind m f w = bind m g w.
Proof. intros H. unfold bind. destruct (m w) as [[e|a] w']; auto. Qed.

Ltac bind_step := rewrite bind_assoc; apply bind_ext; intros ? ?; cbv zeta beta.

Lemma test_split (I : Imports) (uri name : string) (w : World) :
  test I uri name w
  = (let* cl := test_command I uri name in test_terminal name cl) w.
Proof.
  symmetry. unfold test_command, test. repeat bind_step. reflexivity.
Qed.

Lemma world_eta (w : World) :
  mkWorld (editor w) (terminal w) (next_terminal w) (history w) = w.
Proof. destruct w; reflexivity. Qed.

(** *** The calls of a computation *)

Lemma calls_history {A : Type} (m : M A) (w : World) (l : list Event) :
  history (after m w) = rev l ++ history w -> calls m w = l.
Proof.
  intros H. unfold calls. rewrite H, length_app.
  replace (length (rev l) + length (history w) - length (history w))
    with (length (rev l)) by lia.
  rewrite take_app_length. apply rev_involutive.
Qed.

Lemma elem_of_rev {A : Type} (x : A) (l : list A) : x ∈ l -> x ∈ rev l.
Proof. rewrite !list_elem_of_In. apply in_rev. Qed.

(** *** Computations that only read *)

Lemma reads_only_ret {A : Type} (a : A) : reads_only (ret a).
Proof. intros w. exists []. split; [symmetry; apply world_eta | constructor]. Qed.

Lemma reads_only_throw {A : Type} (e : exn) : reads_only (@throw A e).
Proof. intros w. exists []. split; [symmetry; apply world_eta | constructor]. Qed.

Lemma reads_only_lift {A : Type} (r : result A) : reads_only (lift r).
Proof. intros w. exists []. split; [symmetry; apply world_eta | constructor]. Qed.

Lemma reads_only_ask {A : Type} (f : World -> A) : reads_only (ask f).
Proof. intros w. exists []. split; [symmetry; apply world_eta | constructor]. Qed.

Lemma reads_only_emit (e : Event) :
  terminal_event e = false -> effect_event e = false -> reads_only (emit e).
Proof.
  intros Ht He w. exists [e]. split; [reflexivity | repeat constructor; done].
Qed.

Lemma reads_only_bind {A B : Type} (m : M A) (k : A -> M B) :
  reads_only m -> (forall a, reads_only (k a)) -> reads_only (bind m k).
Proof.
  intros Hm Hk w. destruct (Hm w) as (q & Hq & Fq).
  unfold after, bind in *. destruct (m w) as [[e|a] w1]; simpl in Hq.
  - exists q. auto.
  - destruct (Hk a w1) as (q' & Hq' & Fq'). unfold after in Hq'.
    exists (q' ++ q). split.
    + rewrite Hq'. subst w1. simpl. by rewrite app_assoc.
    + by apply Forall_app.
Qed.

Lemma reads_only_if {A : Type} (b : bool) (m1 m2 : M A) :
  reads_only m1 -> reads_only m2 -> reads_only (if b then m1 else m2).
Proof. by destruct b. Qed.

Create HintDb reads.
#[local] Hint Resolve reads_only_ret reads_only_throw reads_only_lift
  reads_only_ask reads_only_bind reads_only_if : reads.
#[local] Hint Extern 1 (reads_only (emit _)) =>
  apply reads_only_emit; reflexivity : reads.

Lemma test_command_reads_only (I : Imports) (uri name : string) :
  reads_only (test_command I uri name).
Proof.
  unfold test_command, workspace_getConfiguration, config_get_default,
    config_has, config_get.
  repeat (first [ apply reads_only_bind; [ | intros ? ]
                | apply reads_only_if
                | solve [ auto with reads ] ]).
Qed.

(** *** What [test_command] computes *)

Lemma test_command_outcome (I : Imports) (uri name : string) (w : World) :
  let cfg := ed_config (editor w) in
  let ns := EXTENSION_NS I in
  outcome (test_command I uri name) w =
    match js_spread I (default (VArr []) (cfg !! (ns, "codeLens.testArgs"))) with
    | inl e => inl e
    | inr configured =>
        match Uri_parse I uri with
        | inl e => inl e
        | inr u =>
            inr {| cl_env :=
                     match cfg !! (ns, "cache") with
                     | Some v => Some {[ "DENO_DIR" := v ]}
                     | None => None
                     end;
                   cl_bin := default (VStr "deno") (cfg !! (ns, "path"));
                   cl_args :=
                     [VStr "test"] ++
                     (configured ++
                      (if bool_decide (is_Some (cfg !! (ns, "unstable")))
                       then [VStr "--unstable"] else []) ++
                      match cfg !! (ns, "importMap") with
                      | Some v => [VStr "--import-map"; VStr (js_string v)]
                      | None => []
                      end) ++
                     [VStr "--filter"; VStr (dquote +:+ name +:+ dquote);
                      VStr (Uri_fsPath I u)] |}
        end
    end.
Proof.
  intros cfg ns. subst cfg ns.
  unfold outcome, test_command, bind; simpl.
  destruct (js_spread I _) as [e|configured]; simpl; [done|].
  destruct (ed_config (editor w) !! (EXTENSION_NS I, "unstable")) as [vu|];
    simpl;
    destruct (ed_config (editor w) !! (EXTENSION_NS I, "importMap"))
      as [vi|] eqn:Hi; simpl;
    destruct (ed_config (editor w) !! (EXTENSION_NS I, "cache"))
      as [vc|] eqn:Hc; simpl;
    destruct (Uri_parse I uri) as [e|u]; simpl;
    rewrite ?Hi, ?Hc; simpl; rewrite ?app_nil_r, <- ?app_assoc; done.
Qed.

(** *** What [test_terminal] does *)

Lemma test_terminal_run (name : string) (cl : CommandLine) (w : World) :
  let h := match terminal w with
           | Some t => EvDispose t :: history w
           | None => history w
           end in
  let n := next_terminal w in
  test_terminal name cl w =
    match ed_createTerminal (editor w) with
    | inl e => (inl e, mkWorld (editor w) None n h)
    | inr _ =>
        (inr tt,
         mkWorld (editor w) (Some n) (S n)
           (EvSendText n
              (js_string (cl_bin cl) +:+ " " +:+ js_join " " (cl_args cl))
            :: EvCreateTerminal n name (ed_root (editor w)) (cl_env cl) :: h))
    end.
Proof.
  destruct w as [e [t|] n h];
    unfold test_terminal, workspace_createTerminal, bind; simpl;
    destruct (ed_createTerminal e) as [x|[]]; reflexivity.
Qed.

Lemma test_run (I : Imports) (uri name : string) (w : World) :
  exists q,
    Forall (fun e => terminal_event e = false /\ effect_event e = false) q
    /\ after (test_command I uri name) w
       = mkWorld (editor w) (terminal w) (next_terminal w) (q ++ history w)
    /\ test I uri name w
       = match outcome (test_command I uri name) w with
         | inl e => (inl e, after (test_command I uri name) w)
         | inr cl => test_terminal name cl (after (test_command I uri name) w)
         end.
Proof.
  destruct (test_command_reads_only I uri name w) as (q & Hq & Fq).
  exists q. split; [done|]. split; [done|].
  rewrite test_split. unfold bind, outcome, after.
  by destruct (test_command I uri name w) as [[e|cl] w1].
Qed.

(** *** Histories *)

Lemma live_quiet (q h : list Event) :
  Forall (fun e => terminal_event e = false) q -> live (q ++ h) = live h.
Proof.
  induction 1 as [|e q He _ IH]; [done|].
  simpl. by destruct e.
Qed.

Lemma created_quiet (q h : list Event) :
  Forall (fun e => terminal_event e = false) q -> created (q ++ h) = created h.
Proof.
  induction 1 as [|e q He _ IH]; [done|].
  simpl. by destruct e.
Qed.

Lemma disposed_quiet (q h : list Event) :
  Forall (fun e => terminal_event e = false) q -> disposed (q ++ h) = disposed h.
Proof.
  induction 1 as [|e q He _ IH]; [done|].
  simpl. by destruct e.
Qed.

Lemma at_all_times_now (P : list Event -> Prop) (h : list Event) :
  at_all_times P h -> P h.
Proof. by destruct h; intros []. Qed.

Lemma at_all_times_quiet (P : list Terminal -> Prop) (q h : list Event) :
  Forall (fun e => terminal_event e = false) q ->
  at_all_times (fun h => P (live h)) h ->
  at_all_times (fun h => P (live h)) (q ++ h).
Proof.
  intros Fq Hh. induction Fq as [|e q He Fq IH]; [done|].
  split; [|exact IH].
  change (P (live ((e :: q) ++ h))).
  rewrite live_quiet by by constructor.
  by apply at_all_times_now in Hh.
Qed.

Lemma created_live_or_disposed (h : list Event) (t : Terminal) :
  t ∈ created h -> t ∈ live h \/ t ∈ disposed h.
Proof.
  induction h as [|e h IH]; simpl; [by intros ?%elem_of_nil|].
  destruct e; simpl; auto.
  - intros [->|Ht]%elem_of_cons; [left; left|].
    destruct (IH Ht); [left; by right | by right].
  - intros Ht. destruct (decide (t = t0)) as [->|Hne]; [right; left|].
    destruct (IH Ht) as [Hl|Hd]; [left | right; by right].
    by apply list_elem_of_filter.
Qed.

Lemma live_created (h : list Event) (t : Terminal) :
  t ∈ live h -> t ∈ created h.
Proof.
  revert t. induction h as [|e h IH]; simpl; [done|].
  destruct e; simpl; auto.
  - intros t' [->|Ht]%elem_of_cons; [left | right; auto].
  - intros t' [_ Ht]%list_elem_of_filter. auto.
Qed.

Lemma quiet_weaken (q : list Event) :
  Forall (fun e => terminal_event e = false /\ effect_event e = false) q ->
  Forall (fun e => terminal_event e = false) q.
Proof. intros H. eapply Forall_impl; [exact H|]. by intros e []. Qed.

Lemma filter_self (t : Terminal) : filter (fun x => x ≠ t) [t] = [].
Proof. rewrite filter_cons, decide_False; [done|]. intros H. by apply H. Qed.

(** *** The invariant of the terminal slot *)

Lemma slot_invariant_initial (e : Editor) : slot_invariant (initial_world e).
Proof.
  split; simpl; [done | constructor | constructor | done | split; [lia|done]].
Qed.

Lemma slot_invariant_set_editor (e : Editor) (w : World) :
  slot_invariant w -> slot_invariant (set_editor e w).
Proof. by intros []. Qed.

Lemma slot_invariant_test (I : Imports) (uri name : string) (w : World) :
  slot_invariant w -> slot_invariant (after (test I uri name) w).
Proof.
  intros [Hl Hc Hd Hf Ha].
  destruct (test_run I uri name w) as (q & Fq & Hq & Ht).
  apply quiet_weaken in Fq.
  assert (slot_invariant (after (test_command I uri name) w)) as Hw1.
  { rewrite Hq. split; simpl;
      rewrite ?live_quiet, ?created_quiet, ?disposed_quiet by done; try done.
    by apply (at_all_times_quiet (fun l => length l <= 1)). }
  unfold after at 1. rewrite Ht.
  destruct (outcome (test_command I uri name) w) as [e|cl]; [done|].
  clear Ht Hl Hc Hd Hf Ha.
  set (w1 := after (test_command I uri name) w) in *. clearbody w1.
  destruct Hw1 as [Hl Hc Hd Hf Ha].
  rewrite test_terminal_run.
  assert (Forall (fun t => t < S (next_terminal w1)) (created (history w1)))
    as Hc' by (eapply Forall_impl; [done | simpl; lia]).
  assert (Forall (fun t => t < S (next_terminal w1)) (disposed (history w1)))
    as Hd' by (eapply Forall_impl; [done | simpl; lia]).
  pose proof (proj1 (Forall_forall _ _) Hc) as Hc1.
  pose proof (proj1 (Forall_forall _ _) Hd) as Hd1.
  destruct w1 as [e [t|] n h]; simpl in *.
  - assert (t < n) as Htn by (apply Hc1, live_created; rewrite Hl; left).
    destruct (ed_createTerminal e) as [x|[]]; split; simpl;
      rewrite ?Hl, ?filter_self; simpl.
    + done.
    + done.
    + by constructor.
    + done.
    + split; [lia|done].
    + done.
    + constructor; [lia|done].
    + constructor; [lia|done].
    + intros t' [= <-] [->|Hin]%elem_of_cons; [lia|].
      apply Hd1 in Hin. lia.
    + repeat split; try lia. done.
  - destruct (ed_createTerminal e) as [x|[]]; split; simpl;
      rewrite ?Hl; simpl.
    + done.
    + done.
    + done.
    + done.
    + done.
    + done.
    + constructor; [lia|done].
    + done.
    + intros t' [= <-] Hin. apply Hd1 in Hin. lia.
    + repeat split; try lia. done.
Qed.


(** *** C1: the single live terminal *)


(** *** C2: the command line is built before the terminal is touched *)

Lemma test_terminal_calls (name : string) (cl : CommandLine) (w : World) :
  calls (test_terminal name cl) w
  = match terminal w with Some t => [EvDispose t] | None => [] end ++
    match ed_createTerminal (editor w) with
    | inl _ => []
    | inr _ =>
        [EvCreateTerminal (next_terminal w) name (ed_root (editor w)) (cl_env cl);
         EvSendText (next_terminal w)
           (js_string (cl_bin cl) +:+ " " +:+ js_join " " (cl_args cl))]
    end.
Proof.
  apply calls_history. unfold after. rewrite test_terminal_run.
  destruct w as [e [t|] n h]; simpl; by destruct (ed_createTerminal e).
Qed.

Lemma test_calls (I : Imports) (uri name : string) (w : World) :
  Forall (fun e => terminal_event e = false /\ effect_event e = false)
    (calls (test_command I uri name) w)
  /\ calls (test I uri name) w
     = calls (test_command I uri name) w ++
       match outcome (test_command I uri name) w with
       | inl _ => []
       | inr cl => calls (test_terminal name cl)
                     (after (test_command I uri name) w)
       end.
Proof.
  destruct (test_run I uri name w) as (q & Fq & Hq & Hrun).
  assert (calls (test_command I uri name) w = rev q) as Hc.
  { apply calls_history. by rewrite Hq, rev_involutive. }
  rewrite Hc. split; [by apply Forall_rev|].
  apply calls_history. unfold after at 1. rewrite Hrun.
  destruct (outcome (test_command I uri name) w) as [e|cl]; simpl.
  - fold (after (test_command I uri name) w).
    by rewrite Hq, app_nil_r, rev_involutive.
  - rewrite test_terminal_calls, test_terminal_run, Hq. simpl.
    rewrite rev_app_distr, rev_involutive.
    destruct (terminal w); destruct (ed_createTerminal (editor w));
      simpl; by rewrite <- ?app_assoc.
Qed.

(** C2.  In every invocation of the test command the calls that read the
    configuration come first and none of them touches a terminal; the
    environment overlay, the executable and the argument list are known
    before the first call on a terminal, and the text written to the new
    terminal is made of them alone.  When the configuration cannot be
    resolved or the argument list cannot be built, the exception is the
    outcome of the invocation, no call on a terminal is made, and the stored
    handle, the live terminals and the rest of the world are as before. *)
Theorem test_builds_before_disposing
    (I : Imports) (uri name : string) (w : World) :
  (forall e : exn,
      outcome (test_command I uri name) w = inl e ->
      outcome (test I uri name) w = inl e
      /\ terminal (after (test I uri name) w) = terminal w
      /\ next_terminal (after (test I uri name) w) = next_terminal w
      /\ editor (after (test I uri name) w) = editor w
      /\ live (history (after (test I uri name) w)) = live (history w)
      /\ Forall (fun ev => terminal_event ev = false) (calls (test I uri name) w))
  /\ (forall cl : CommandLine,
      outcome (test_command I uri name) w = inr cl ->
      calls (test I uri name) w
      = calls (test_command I uri name) w ++
        calls (test_terminal name cl) (after (test_command I uri name) w)
      /\ Forall (fun ev => terminal_event ev = false)
           (calls (test_command I uri name) w)
      /\ Forall (fun ev => terminal_event ev = true)
           (calls (test_terminal name cl) (after (test_command I uri name) w))
      /\ forall t text,
           EvSendText t text ∈ calls (test I uri name) w ->
           text = js_string (cl_bin cl) +:+ " " +:+ js_join " " (cl_args cl)).
Proof.
  destruct (test_calls I uri name w) as [Fc Hc].
  destruct (test_run I uri name w) as (q & Fq & Hq & Hrun).
  split.
  - intros e He. rewrite He in Hc, Hrun.
    unfold outcome, after in *. rewrite Hrun. simpl.
    rewrite Hq. simpl. repeat split.
    + apply live_quiet. by apply quiet_weaken.
    + rewrite Hc, app_nil_r. by apply quiet_weaken.
  - intros cl Hcl. rewrite Hcl in Hc.
    assert (Forall (fun ev => terminal_event ev = true)
              (calls (test_terminal name cl) (after (test_command I uri name) w)))
      as Ft.
    { rewrite test_terminal_calls.
      destruct (terminal (after (test_command I uri name) w));
        destruct (ed_createTerminal _); repeat constructor. }
    split; [done|]. split; [by apply quiet_weaken|]. split; [done|].
    intros t text Hin. rewrite Hc in Hin.
    apply elem_of_app in Hin as [Hin|Hin].
    + apply quiet_weaken in Fc. rewrite Forall_forall in Fc.
      by apply Fc in Hin.
    + rewrite test_terminal_calls in Hin.
      apply elem_of_app in Hin as [Hin|Hin].
      * destruct (terminal (after (test_command I uri name) w));
          [|by apply elem_of_nil in Hin].
        by apply list_elem_of_singleton in Hin.
      * destruct (ed_createTerminal _); [by apply elem_of_nil in Hin|].
        apply elem_of_cons in Hin as [Hin|Hin]; [done|].
        apply list_elem_of_singleton in Hin. by injection Hin.
Qed.

(** *** C3, C5: the argument list and the environment overlay *)

Lemma test_calls_created (I : Imports) (uri name : string) (w : World)
    (cl : CommandLine) :
  outcome (test_command I uri name) w = inr cl ->
  ed_createTerminal (editor w) = inr tt ->
  exists q,
    calls (test I uri name) w
    = q ++ [EvCreateTerminal (next_terminal w) name (ed_root (editor w))
              (cl_env cl);
            EvSendText (next_terminal w)
              (js_string (cl_bin cl) +:+ " " +:+ js_join " " (cl_args cl))]
    /\ created q = [].
Proof.
  intros Hcl Hok.
  destruct (test_calls I uri name w) as [Fc Hc].
  destruct (test_run I uri name w) as (q & _ & Hq & _).
  rewrite Hcl, test_terminal_calls, Hq in Hc. simpl in Hc. rewrite Hok in Hc.
  eexists. split; [rewrite Hc, !app_assoc; reflexivity|].
  apply quiet_weaken in Fc.
  pose proof (created_quiet _ [] Fc) as Hcr. rewrite app_nil_r in Hcr.
  assert (forall a b, created (a ++ b) = created a ++ created b) as Happ.
  { intros a b. induction a as [|x a IH]; [done|].
    destruct x; simpl; by rewrite ?IH. }
  rewrite Happ, Hcr. by destruct (terminal w).
Qed.

(** C3.  With [codeLens.testArgs] set to [["--coverage"]], [unstable] set
    to [true] and no [importMap], the test command invoked for the test
    [my test] of [file:///a/b.ts], whose file-system path is [/a/b.ts],
    builds the arguments [test], [--coverage], [--unstable], [--filter],
    the name between two literal double-quote characters, and [/a/b.ts];
    when the host opens the terminal, the text written to it is the
    executable and these arguments, joined by single spaces.  The
    double-quote character is written out as the character of code 34, so
    that the statement fixes the bytes of the argument and of the text. *)
Theorem test_argument_construction (I : Imports) (w : World) (u : Uri) :
  ed_config (editor w) !! (EXTENSION_NS I, "codeLens.testArgs")
    = Some (VArr [VStr "--coverage"]) ->
  ed_config (editor w) !! (EXTENSION_NS I, "unstable") = Some (VBool true) ->
  ed_config (editor w) !! (EXTENSION_NS I, "importMap") = None ->
  Uri_parse I "file:///a/b.ts" = inr u ->
  Uri_fsPath I u = "/a/b.ts" ->
  ed_createTerminal (editor w) = inr tt ->
  let quoted := String "034"%char "my test" +:+ String "034"%char EmptyString in
  let bin := default (VStr "deno") (ed_config (editor w) !! (EXTENSION_NS I, "path")) in
  (exists cl,
      outcome (test_command I "file:///a/b.ts" "my test") w = inr cl
      /\ cl_bin cl = bin
      /\ cl_args cl = [VStr "test"; VStr "--coverage"; VStr "--unstable";
                       VStr "--filter"; VStr quoted; VStr "/a/b.ts"])
  /\ exists q t,
      calls (test I "file:///a/b.ts" "my test") w
      = q ++ [EvSendText t
                (String.concat " "
                   [js_string bin; "test"; "--coverage"; "--unstable";
                    "--filter"; quoted; "/a/b.ts"])]
      /\ Forall (fun e => forall t' text, e ≠ EvSendText t' text) q.
Proof.
  intros Hargs Hun Him Hu Hfs Hok quoted bin.
  pose proof (test_command_outcome I "file:///a/b.ts" "my test" w) as Hout.
  simpl in Hout. rewrite Hargs, Hun, Him, Hu, Hfs in Hout. simpl in Hout.
  split; [eexists; split; [exact Hout|by split]|].
  destruct (test_calls_created _ _ _ _ _ Hout Hok) as (q & Hq & Hcr).
  exists (q ++ [EvCreateTerminal (next_terminal w) "my test"
                  (ed_root (editor w))
                  match ed_config (editor w) !! (EXTENSION_NS I, "cache") with
                  | Some v => Some {[ "DENO_DIR" := v ]}
                  | None => None
                  end]), (next_terminal w).
  split.
  - rewrite Hq. simpl. by rewrite <- app_assoc.
  - destruct (test_calls I "file:///a/b.ts" "my test" w) as [Fc Hc].
    rewrite Hout, test_terminal_calls in Hc.
    destruct (test_run I "file:///a/b.ts" "my test" w) as (q' & _ & Hq' & _).
    rewrite Hq' in Hc. simpl in Hc. rewrite Hok in Hc.
    rewrite Hc in Hq.
    assert (q = calls (test_command I "file:///a/b.ts" "my test") w ++
                match terminal w with Some t => [EvDispose t] | None => [] end)
      as ->.
    { rewrite !app_assoc in Hq.
      change [?a; ?b] with ([a] ++ [b]) in Hq. rewrite !app_assoc in Hq.
      apply app_inj_tail in Hq as [Hq _].
      by apply app_inj_tail in Hq as [Hq _]. }
    apply Forall_app. split; [apply Forall_app; split|].
    + eapply Forall_impl; [exact Fc|]. by intros e [He _] t' text ->.
    + destruct (terminal w); by repeat constructor.
    + by repeat constructor.
Qed.

(** C5.  Whatever the configuration, every terminal the test command
    creates gets the overlay [{DENO_DIR: V}] when the [cache] key has the
    value [V], and no overlay at all when the key is absent; and when the
    command line can be built and the host opens the terminal, exactly one
    terminal is created, with that overlay. *)
Theorem test_environment_overlay (I : Imports) (uri name : string) (w : World) :
  let passes (env : option (gmap string jsval)) :=
    (forall t n c env',
        EvCreateTerminal t n c env' ∈ calls (test I uri name) w -> env' = env)
    /\ (forall cl,
        outcome (test_command I uri name) w = inr cl ->
        ed_createTerminal (editor w) = inr tt ->
        exists q text,
          calls (test I uri name) w
          = q ++ [EvCreateTerminal (next_terminal w) name (ed_root (editor w)) env;
                  EvSendText (next_terminal w) text]
          /\ created q = []) in
  (forall V,
      ed_config (editor w) !! (EXTENSION_NS I, "cache") = Some V ->
      passes (Some {[ "DENO_DIR" := V ]}))
  /\ (ed_config (editor w) !! (EXTENSION_NS I, "cache") = None ->
      passes None).
Proof.
  intros passes.
  assert (passes match ed_config (editor w) !! (EXTENSION_NS I, "cache") with
                 | Some v => Some {[ "DENO_DIR" := v ]}
                 | None => None
                 end) as H.
  { pose proof (test_command_outcome I uri name w) as Hout. simpl in Hout.
    destruct (test_calls I uri name w) as [Fc Hc].
    split.
    - intros t n c env' Hin. rewrite Hc in Hin.
      apply elem_of_app in Hin as [Hin|Hin].
      { apply quiet_weaken in Fc. rewrite Forall_forall in Fc.
        by apply Fc in Hin. }
      destruct (outcome (test_command I uri name) w) as [e|cl];
        [by apply elem_of_nil in Hin|].
      rewrite test_terminal_calls in Hin.
      assert (cl_env cl = match ed_config (editor w) !! (EXTENSION_NS I, "cache") with
                          | Some v => Some {[ "DENO_DIR" := v ]}
                          | None => None
                          end) as Henv.
      { destruct (js_spread I _); [done|].
        destruct (Uri_parse I uri); [done|]. by simplify_eq/=. }
      apply elem_of_app in Hin as [Hin|Hin].
      + destruct (terminal (after (test_command I uri name) w));
          [|by apply elem_of_nil in Hin].
        by apply list_elem_of_singleton in Hin.
      + destruct (ed_createTerminal (editor (after (test_command I uri name) w)));
          [by apply elem_of_nil in Hin|].
        apply elem_of_cons in Hin as [Hin|Hin].
        * injection Hin as _ _ _ ->. done.
        * by apply list_elem_of_singleton in Hin.
    - intros cl Hcl Hok.
      destruct (test_calls_created _ _ _ _ _ Hcl Hok) as (q & Hq & Hcr).
      exists q, (js_string (cl_bin cl) +:+ " " +:+ js_join " " (cl_args cl)).
      split; [|done]. rewrite Hq.
      rewrite Hcl in Hout.
      destruct (js_spread I _); [done|].
      destruct (Uri_parse I uri); [done|]. simplify_eq/=. reflexivity. }
  split.
  - intros V HV. by rewrite HV in H.
  - intros HV. by rewrite HV in H.
Qed.

(** *** C4: the unstable flag *)

(** C4 fails at the configuration [unstable: false]: the test command
    appends [--unstable] whenever the key is present, whatever its value.
    That is the configuration [initializeWorkspace] leaves when the user
    confirms the picker without choosing the unstable APIs, so a test run
    after it gets the flag the user declined. *)
Lemma test_appends_unstable_when_false :
  outcome (test_command posix "file:///a/b.ts" "my test")
    (initial_world (example_editor unstable_off_config))
  = inr {| cl_env := None;
           cl_bin := VStr "deno";
           cl_args := [VStr "test"; VStr "--unstable"; VStr "--filter";
                       VStr (dquote +:+ "my test" +:+ dquote);
                       VStr "/a/b.ts"] |}
  /\ ed_config
       (editor (after (initializeWorkspace posix)
                  (initial_world (picker_editor empty_config (Some [])))))
     !! ("deno", "unstable") = Some (VBool false)
  /\ outcome (test_command posix "file:///a/b.ts" "my test")
       (after (initializeWorkspace posix)
          (initial_world (picker_editor empty_config (Some []))))
     = inr {| cl_env := None;
              cl_bin := VStr "deno";
              cl_args := [VStr "test"; VStr "--unstable"; VStr "--filter";
                          VStr (dquote +:+ "my test" +:+ dquote);
                          VStr "/a/b.ts"] |}.
Proof. repeat split; vm_compute; reflexivity. Qed.

(** *** C6: the cache request *)

Lemma cache_run (ctx : ExtensionContext) (client : LanguageClient)
    (w : World) (U : string) :
  ed_current (editor w) = inr U ->
  cache ctx client w
  = (ed_respond (editor w) (cacheReq U []),
     mkWorld (editor w) (terminal w) (next_terminal w)
       (EvProgressEnd :: EvSendRequest client (cacheReq U [])
        :: EvProgressBegin "caching" true :: EvGetCurrentState :: history w)).
Proof.
  intros HU. unfold cache, workspace_getCurrentState, window_withProgress,
    client_sendRequest, bind; simpl. rewrite HU. simpl.
  by destruct (ed_respond (editor w) (cacheReq U [])).
Qed.

(** C6.  When the editor has an active document of URI [U], an invocation
    of the cache command makes these calls and no other: it asks for the
    current state, opens a cancellable progress scope titled [caching],
    sends one cache request whose referrer is [U] and whose list of URIs is
    empty, and closes the scope; its outcome is the answer of the server.
    The document is looked up at each invocation: the same callback
    invoked again, when the active document has become [U'], sends [U']. *)
Theorem cache_request (ctx : ExtensionContext) (client : LanguageClient)
    (w : World) (U : string) :
  ed_current (editor w) = inr U ->
  calls (cache ctx client) w
  = [EvGetCurrentState; EvProgressBegin "caching" true;
     EvSendRequest client (cacheReq U []); EvProgressEnd]
  /\ outcome (cache ctx client) w = ed_respond (editor w) (cacheReq U [])
  /\ forall (e' : Editor) (U' : string),
       ed_current e' = inr U' ->
       calls (cache ctx client) (set_editor e' (after (cache ctx client) w))
       = [EvGetCurrentState; EvProgressBegin "caching" true;
          EvSendRequest client (cacheReq U' []); EvProgressEnd].
Proof.
  intros HU. split; [|split].
  - apply calls_history. unfold after. by rewrite (cache_run _ _ _ U).
  - unfold outcome. by rewrite (cache_run _ _ _ U).
  - intros e' U' HU'. apply calls_history. unfold after at 1.
    by rewrite (cache_run _ _ _ U').
Qed.

(** *** C7: the status document *)

Lemma js_split_nonempty (sep : ascii) (s : string) : js_split sep s ≠ [].
Proof.
  destruct s as [|c s]; simpl; [done|].
  destruct (bool_decide (c = sep)); [done|]. by destruct (js_split sep s).
Qed.

(** Joining the pieces with the separator gives the string back. *)
Lemma js_split_join (sep : ascii) (s : string) :
  String.concat (String sep EmptyString) (js_split sep s) = s.
Proof.
  induction s as [|c s IH]; simpl; [done|].
  pose proof (js_split_nonempty sep s) as Hne.
  destruct (bool_decide_reflect (c = sep)) as [->|Hc].
  - simpl. destruct (js_split sep s) as [|p r]; [done|].
    simpl in *. by rewrite IH.
  - destruct (js_split sep s) as [|p r]; [done|].
    simpl in *. destruct r; simpl in *; by rewrite <- IH.
Qed.

(** No piece contains the separator. *)
Lemma js_split_pieces (sep : ascii) (s : string) :
  Forall (fun piece => occurs sep piece = false) (js_split sep s).
Proof.
  induction s as [|c s IH]; simpl; [by repeat constructor|].
  destruct (bool_decide_reflect (c = sep)) as [->|Hc].
  - by constructor.
  - destruct (js_split sep s) as [|p r]; simpl.
    + repeat constructor. simpl. by rewrite bool_decide_false.
    + inversion IH; subst. constructor; [|done].
      simpl. by rewrite bool_decide_false.
Qed.

Lemma status_run (ctx : ExtensionContext) (client : LanguageClient)
    (w : World) (r : string) :
  ed_respond (editor w) (virtualTextDocument "deno:/status.md") = inr (VStr r) ->
  status ctx client w
  = (inr VUndefined,
     mkWorld (editor w) (terminal w) (next_terminal w)
       (EvEchoLines (js_split newline r)
        :: EvSendRequest client (virtualTextDocument "deno:/status.md")
        :: history w)).
Proof.
  intros Hr. unfold status, client_sendRequest, bind; simpl. by rewrite Hr.
Qed.

Lemma status_requests (ctx : ExtensionContext) (client : LanguageClient)
    (w : World) :
  requests (calls (status ctx client) w)
  = [(client, virtualTextDocument "deno:/status.md")].
Proof.
  destruct (ed_respond (editor w) (virtualTextDocument "deno:/status.md"))
    as [e|v] eqn:Hr.
  - rewrite (calls_history _ _
      [EvSendRequest client (virtualTextDocument "deno:/status.md")]); [done|].
    unfold after, status, client_sendRequest, bind; simpl. by rewrite Hr.
  - destruct v as [| |b|n|s|l|f].
    5: { rewrite (calls_history _ _
           [EvSendRequest client (virtualTextDocument "deno:/status.md");
            EvEchoLines (js_split newline s)]); [done|].
         unfold after. by rewrite (status_run _ _ _ s). }
    all: rewrite (calls_history _ _
           [EvSendRequest client (virtualTextDocument "deno:/status.md")]);
      [done|].
    all: unfold after, status, client_sendRequest, bind; simpl; by rewrite Hr.
Qed.

(** C7.  Every invocation of the status command sends one request to the
    language server, for the virtual document [deno:/status.md].  When the
    server answers with the text [r], the invocation makes two calls: that
    request, and the echo of the lines of [r], which are its pieces between
    the line feeds, in order: joined by line feeds they give [r] back and
    none contains a line feed.  The text [line1], [line2], [line3] on three
    lines is echoed as these three lines.  The line feed is written out as
    the character of code 10, so that the statement fixes the separator. *)
Theorem status_round_trip (ctx : ExtensionContext) (client : LanguageClient)
    (w : World) :
  requests (calls (status ctx client) w)
  = [(client, virtualTextDocument "deno:/status.md")]
  /\ (forall r : string,
      ed_respond (editor w) (virtualTextDocument "deno:/status.md")
      = inr (VStr r) ->
      calls (status ctx client) w
      = [EvSendRequest client (virtualTextDocument "deno:/status.md");
         EvEchoLines (js_split "010"%char r)]
      /\ String.concat (String "010"%char EmptyString) (js_split "010"%char r)
         = r
      /\ Forall (fun piece => occurs "010"%char piece = false)
           (js_split "010"%char r))
  /\ (ed_respond (editor w) (virtualTextDocument "deno:/status.md")
      = inr (VStr ("line1" +:+ String "010"%char "line2" +:+
                   String "010"%char "line3")) ->
      calls (status ctx client) w
      = [EvSendRequest client (virtualTextDocument "deno:/status.md");
         EvEchoLines ["line1"; "line2"; "line3"]]).
Proof.
  split; [apply status_requests|]. split.
  - intros r Hr. split; [|split].
    + apply calls_history. unfold after. by rewrite (status_run _ _ _ r).
    + apply (js_split_join newline).
    + apply (js_split_pieces newline).
  - intros Hr. apply calls_history. unfold after.
    by rewrite (status_run _ _ _ _ Hr).
Qed.

(** *** C9: the TSServer conflict check *)

Lemma checkTSServer_run (w : World) :
  checkTSServer w
  = let cfg := ed_config (editor w) in
    let h := EvConfigGet "tsserver" "enable"
             :: EvGetConfiguration "tsserver" :: history w in
    if truthy (default VUndefined (cfg !! ("tsserver", "enable"))) then
      (inr tt,
       mkWorld
         (set_config (<[("tsserver", "enable") := VBool false]> cfg) (editor w))
         (terminal w) (next_terminal w)
         (EvNvimCommand "CocRestart" true
          :: EvConfigUpdate "tsserver" "enable" (VBool false) :: h))
    else (inr tt, mkWorld (editor w) (terminal w) (next_terminal w) h).
Proof.
  unfold checkTSServer, workspace_getConfiguration, config_get, bind; simpl.
  by destruct (truthy _).
Qed.

Lemma checkTSServer_twice (w : World) :
  (checkTSServer ;; checkTSServer) w = checkTSServer (after checkTSServer w).
Proof.
  unfold bind, after. rewrite (checkTSServer_run w). simpl.
  by destruct (truthy _).
Qed.

Lemma checkTSServer_calls (w : World) :
  calls checkTSServer w
  = [EvGetConfiguration "tsserver"; EvConfigGet "tsserver" "enable"] ++
    if truthy (default VUndefined
                 (ed_config (editor w) !! ("tsserver", "enable")))
    then [EvConfigUpdate "tsserver" "enable" (VBool false);
          EvNvimCommand "CocRestart" true]
    else [].
Proof.
  apply calls_history. unfold after. rewrite checkTSServer_run. simpl.
  by destruct (truthy _).
Qed.

Lemma checkTSServer_settles (w : World) :
  truthy (default VUndefined
            (ed_config (editor (after checkTSServer w)) !! ("tsserver", "enable")))
  = false.
Proof.
  unfold after. rewrite checkTSServer_run. cbv zeta.
  destruct (truthy (default VUndefined
                      (ed_config (editor w) !! ("tsserver", "enable"))))
    eqn:E; cbn [snd editor ed_config set_config]; [|done].
  by rewrite lookup_insert_eq.
Qed.

(** C9.  When the [enable] setting of the [tsserver] section is absent or
    [false], the check leaves the editor as it is and makes no
    configuration write and no host command.  When it is [true], the check
    writes [false] to it and issues the one command [CocRestart].  Running
    the check twice leaves the same configuration and makes the same
    writes and commands as running it once. *)
Theorem checkTSServer_idempotent (w : World) :
  let cfg := ed_config (editor w) in
  (cfg !! ("tsserver", "enable") = None
   \/ cfg !! ("tsserver", "enable") = Some (VBool false) ->
   editor (after checkTSServer w) = editor w
   /\ effects (calls checkTSServer w) = [])
  /\ (cfg !! ("tsserver", "enable") = Some (VBool true) ->
      ed_config (editor (after checkTSServer w))
      = <[("tsserver", "enable") := VBool false]> cfg
      /\ effects (calls checkTSServer w)
         = [EvConfigUpdate "tsserver" "enable" (VBool false);
            EvNvimCommand "CocRestart" true])
  /\ editor (after (checkTSServer ;; checkTSServer) w)
     = editor (after checkTSServer w)
  /\ effects (calls (checkTSServer ;; checkTSServer) w)
     = effects (calls checkTSServer w).
Proof.
  intros cfg. subst cfg. split; [|split; [|split]].
  - intros H. rewrite checkTSServer_calls. unfold after.
    rewrite checkTSServer_run. cbv zeta. by destruct H as [-> | ->].
  - intros H. rewrite checkTSServer_calls. unfold after.
    rewrite checkTSServer_run. cbv zeta. by rewrite H.
  - unfold after at 1. rewrite checkTSServer_twice.
    rewrite checkTSServer_run. simpl. by rewrite checkTSServer_settles.
  - assert (calls (checkTSServer ;; checkTSServer) w
            = calls checkTSServer w ++
              [EvGetConfiguration "tsserver"; EvConfigGet "tsserver" "enable"])
      as ->.
    { apply calls_history. unfold after at 1. rewrite checkTSServer_twice.
      rewrite checkTSServer_run. simpl. rewrite checkTSServer_settles. simpl.
      unfold after. rewrite checkTSServer_calls, checkTSServer_run. simpl.
      by destruct (truthy _). }
    unfold effects. by rewrite List.filter_app, app_nil_r.
Qed.

(** *** C10: showReferences *)

(** C10.  With the empty string for [uri], [showReferences] returns at
    once: no call is made and the world is the one it started from, for
    every position and every list of locations.  With a [uri] that is not
    empty and that [Uri.parse] accepts, it makes exactly one call, the
    editor command [editor.action.showReferences] with the parsed URI, the
    position and the locations. *)
Theorem showReferences_guard
    (I : Imports) (position : Position) (locations : list Location) (w : World) :
  showReferences I EmptyString position locations w = (inr tt, w)
  /\ forall (uri : string) (u : Uri),
       uri ≠ EmptyString ->
       Uri_parse I uri = inr u ->
       outcome (showReferences I uri position locations) w = inr tt
       /\ calls (showReferences I uri position locations) w
          = [EvExecuteCommand "editor.action.showReferences" u position locations]
       /\ editor (after (showReferences I uri position locations) w) = editor w.
Proof.
  split; [done|].
  intros uri u Hne Hu.
  assert (showReferences I uri position locations w
          = (inr tt,
             record (EvExecuteCommand "editor.action.showReferences"
                       u position locations) w)) as Hrun.
  { unfold showReferences. rewrite bool_decide_false by done.
    unfold bind, lift. by rewrite Hu. }
  split; [|split].
  - unfold outcome. by rewrite Hrun.
  - apply calls_history. unfold after. by rewrite Hrun.
  - unfold after. by rewrite Hrun.
Qed.

(** *** C8: Initialize-Workspace *)

Lemma checkTSServer_history (w : World) :
  exists a b q,
    history (after checkTSServer w) = q ++ a :: b :: history w.
Proof.
  unfold after. rewrite checkTSServer_run. cbv zeta.
  destruct (truthy _); simpl.
  - by exists (EvConfigGet "tsserver" "enable"),
      (EvGetConfiguration "tsserver"),
      [EvNvimCommand "CocRestart" true;
       EvConfigUpdate "tsserver" "enable" (VBool false)].
  - by exists (EvConfigGet "tsserver" "enable"),
      (EvGetConfiguration "tsserver"), [].
Qed.

(** C8, as stated, fails when the picker is dismissed: the command
    returns before the TSServer check, although the TypeScript server is
    enabled. *)
Lemma initializeWorkspace_dismissed_skips_check :
  ~ finishes_with (initializeWorkspace posix) checkTSServer
      (initial_world (picker_editor tsserver_config None)).
Proof.
  intros (w1 & q & Hq & Hafter).
  destruct (checkTSServer_history w1) as (a & b & q' & Hh).
  rewrite <- Hafter, Hq in Hh. apply (f_equal length) in Hh.
  rewrite !length_app in Hh. simpl in Hh. rewrite length_app in Hh. simpl in Hh.
  lia.
Qed.

(** Solves [e1 :: ... :: en :: h = ?q ++ h] by taking the new calls for
    [?q]. *)
Ltac history_prefix :=
  repeat match goal with
         | |- ?a :: ?l = ?q ++ ?h =>
             is_evar q;
             let q' := fresh "q" in
             evar (q' : list Event); unify q (a :: q'); subst q';
             cbn [app]; f_equal
         end;
  match goal with
  | |- ?h = ?q ++ ?h => unify q (@nil Event); reflexivity
  end.

Lemma checkTSServer_outcome (w : World) : outcome checkTSServer w = inr tt.
Proof.
  unfold outcome. rewrite checkTSServer_run. cbv zeta. by destruct (truthy _).
Qed.

Lemma initializeWorkspace_chosen (I : Imports) (w : World)
    (settings : list string) :
  ed_picker (editor w)
    (if bool_decide ("coc-prettier" ∈ ed_extensions (editor w))
     then ["Enable Deno linting?"; "Enable Deno unstable APIs?";
           "Disable coc-prettier for current project?"]
     else ["Enable Deno linting?"; "Enable Deno unstable APIs?"])
    "Initialize Deno Project" = inr (Some settings) ->
  exists w1 q,
    initializeWorkspace I w = (inr VUndefined, after checkTSServer w1)
    /\ history w1 = q ++ history w
    /\ EvConfigUpdate (EXTENSION_NS I) "enable" (VBool true) ∈ q
    /\ EvConfigUpdate (EXTENSION_NS I) "lint"
         (VBool (includes settings "Enable Deno linting?")) ∈ q
    /\ EvConfigUpdate (EXTENSION_NS I) "unstable"
         (VBool (includes settings "Enable Deno unstable APIs?")) ∈ q.
Proof.
  intros Hpick.
  unfold initializeWorkspace, window_showPickerDialog, extensions_all, bind.
  cbn -[checkTSServer]. rewrite Hpick. cbn -[checkTSServer].
  destruct (includes settings "Disable coc-prettier for current project?");
    cbn -[checkTSServer].
  all: match goal with
       | |- context [checkTSServer ?W] =>
           exists W; pose proof (checkTSServer_outcome W) as Ho;
           unfold outcome, after in *;
           destruct (checkTSServer W) as [r w2]; simpl in Ho; subst r
       end.
  all: eexists; split; [reflexivity|]; split; [simpl; history_prefix|].
  all: rewrite !elem_of_cons; naive_solver.
Qed.

(** C8, amended.  When the user answers the picker, with any selection
    and with the empty one too, the command writes [enable], [lint] and
    [unstable] in the section of the extension and finishes by running the
    TSServer conflict check.  When the user dismisses the picker, the
    command makes no call but the picker, leaves the whole editor,
    configuration included, as it was, and does not run the check. *)
Theorem initializeWorkspace_check (I : Imports) (w : World) :
  let title := "Initialize Deno Project" in
  let linting := "Enable Deno linting?" in
  let unstable := "Enable Deno unstable APIs?" in
  let prettier := "Disable coc-prettier for current project?" in
  let items :=
    if bool_decide ("coc-prettier" ∈ ed_extensions (editor w))
    then [linting; unstable; prettier]
    else [linting; unstable] in
  (forall settings : list string,
      ed_picker (editor w) items title = inr (Some settings) ->
      finishes_with (initializeWorkspace I) checkTSServer w
      /\ outcome (initializeWorkspace I) w = inr VUndefined
      /\ EvConfigUpdate (EXTENSION_NS I) "enable" (VBool true)
           ∈ calls (initializeWorkspace I) w
      /\ EvConfigUpdate (EXTENSION_NS I) "lint" (VBool (includes settings linting))
           ∈ calls (initializeWorkspace I) w
      /\ EvConfigUpdate (EXTENSION_NS I) "unstable"
           (VBool (includes settings unstable))
           ∈ calls (initializeWorkspace I) w)
  /\ (ed_picker (editor w) items title = inr None ->
      outcome (initializeWorkspace I) w = inr VUndefined
      /\ editor (after (initializeWorkspace I) w) = editor w
      /\ calls (initializeWorkspace I) w = [EvShowPickerDialog items title]
      /\ ~ finishes_with (initializeWorkspace I) checkTSServer w).
Proof.
  intros title linting unstable prettier items.
  subst title linting unstable prettier items. split.
  - intros settings Hpick.
    destruct (initializeWorkspace_chosen I w settings Hpick)
      as (w1 & q & Hrun & Hq & H1 & H2 & H3).
    destruct (checkTSServer_history w1) as (a & b & qc & Hc).
    assert (calls (initializeWorkspace I) w = rev (qc ++ a :: b :: q)) as Hcalls.
    { apply calls_history. unfold after at 1. rewrite Hrun. simpl.
      rewrite Hc, Hq, rev_involutive, <- app_assoc. done. }
    split; [by exists w1, q; split; [|unfold after at 1; rewrite Hrun]|].
    split; [unfold outcome; by rewrite Hrun|].
    rewrite Hcalls.
    repeat split; apply elem_of_rev, elem_of_app; right;
      do 2 (apply elem_of_cons; right); done.
  - intros Hpick.
    assert (initializeWorkspace I w
            = (inr VUndefined,
               record (EvShowPickerDialog
                         (if bool_decide ("coc-prettier" ∈ ed_extensions (editor w))
                          then ["Enable Deno linting?";
                                "Enable Deno unstable APIs?";
                                "Disable coc-prettier for current project?"]
                          else ["Enable Deno linting?";
                                "Enable Deno unstable APIs?"])
                         "Initialize Deno Project") w))
      as Hrun.
    { unfold initializeWorkspace, window_showPickerDialog, extensions_all, bind.
      cbn -[checkTSServer]. by rewrite Hpick. }
    split; [unfold outcome; by rewrite Hrun|].
    split; [unfold after; by rewrite Hrun|].
    split; [apply calls_history; unfold after; by rewrite Hrun|].
    intros (w1 & q & Hq & Hafter).
    destruct (checkTSServer_history w1) as (a & b & q' & Hh).
    unfold after at 1 in Hafter. rewrite Hrun in Hafter. simpl in Hafter.
    rewrite <- Hafter, Hq in Hh. apply (f_equal length) in Hh.
    simpl in Hh. rewrite !length_app in Hh. simpl in Hh.
    rewrite length_app in Hh. lia.
Qed.

(** *** The theorems at concrete worlds *)


(** C2 at a configuration whose [codeLens.testArgs] is a number, with
    terminal [0] live, and at a configuration that can be used. *)
Lemma test_builds_before_disposing_witness :
  (outcome (test posix "file:///a/b.ts" "my test")
     (world_with_terminal malformed_config)
   = inl (TypeError "object is not iterable")
   /\ terminal (after (test posix "file:///a/b.ts" "my test")
                  (world_with_terminal malformed_config)) = Some 0
   /\ live (history (after (test posix "file:///a/b.ts" "my test")
                       (world_with_terminal malformed_config))) = [0])
  /\ calls (test posix "file:///a/b.ts" "my test")
       (world_with_terminal cache_config)
     = calls (test_command posix "file:///a/b.ts" "my test")
         (world_with_terminal cache_config) ++
       [EvDispose 0;
        EvCreateTerminal 1 "my test" "/work"
          (Some {[ "DENO_DIR" := VStr "/tmp/deno" ]});
        EvSendText 1
          ("deno test --filter " +:+ dquote +:+ "my test" +:+ dquote +:+ " /a/b.ts")].
Proof.
  split.
  - destruct (proj1 (test_builds_before_disposing posix "file:///a/b.ts"
                       "my test" (world_with_terminal malformed_config))
                (TypeError "object is not iterable"))
      as (H1 & H2 & _ & _ & H5 & _); [vm_compute; reflexivity|].
    split; [exact H1|]. split; [exact H2|exact H5].
  - destruct (proj2 (test_builds_before_disposing posix "file:///a/b.ts"
                       "my test" (world_with_terminal cache_config))
                {| cl_env := Some {[ "DENO_DIR" := VStr "/tmp/deno" ]};
                   cl_bin := VStr "deno";
                   cl_args := [VStr "test"; VStr "--filter";
                               VStr (dquote +:+ "my test" +:+ dquote);
                               VStr "/a/b.ts"] |})
      as (H1 & _); [vm_compute; reflexivity|].
    rewrite H1. f_equal.
Defined.

(** C3 on the POSIX host, with the default executable: the argument is the
    nine characters of the name between two characters of code 34, and the
    text is written out in full. *)
Lemma test_argument_construction_witness :
  (exists cl,
      outcome (test_command posix "file:///a/b.ts" "my test")
        (initial_world (example_editor coverage_config)) = inr cl
      /\ cl_bin cl = VStr "deno"
      /\ cl_args cl
         = [VStr "test"; VStr "--coverage"; VStr "--unstable"; VStr "--filter";
            VStr (String "034"%char "my test" +:+ String "034"%char EmptyString);
            VStr "/a/b.ts"])
  /\ exists q t,
      calls (test posix "file:///a/b.ts" "my test")
        (initial_world (example_editor coverage_config))
      = q ++ [EvSendText t
                ("deno test --coverage --unstable --filter " +:+
                 String "034"%char "my test" +:+
                 String "034"%char " /a/b.ts")]
      /\ Forall (fun e => forall t' text, e ≠ EvSendText t' text) q.
Proof.
  apply (test_argument_construction posix
           (initial_world (example_editor coverage_config))
           (mkUri "file" EmptyString "/a/b.ts" EmptyString EmptyString));
    vm_compute; reflexivity.
Defined.

(** C5 with [cache] set to [/tmp/deno], and without [cache]. *)
Lemma test_environment_overlay_witness :
  (exists q text,
      calls (test posix "file:///a/b.ts" "my test")
        (initial_world (example_editor cache_config))
      = q ++ [EvCreateTerminal 0 "my test" "/work"
                (Some {[ "DENO_DIR" := VStr "/tmp/deno" ]});
              EvSendText 0 text]
      /\ created q = [])
  /\ (exists q text,
      calls (test posix "file:///a/b.ts" "my test")
        (initial_world (example_editor empty_config))
      = q ++ [EvCreateTerminal 0 "my test" "/work" None; EvSendText 0 text]
      /\ created q = []).
Proof.
  split.
  - apply (proj2 (proj1 (test_environment_overlay posix "file:///a/b.ts"
                           "my test"
                           (initial_world (example_editor cache_config)))
                    (VStr "/tmp/deno") ltac:(vm_compute; reflexivity))
             {| cl_env := Some {[ "DENO_DIR" := VStr "/tmp/deno" ]};
                cl_bin := VStr "deno";
                cl_args := [VStr "test"; VStr "--filter";
                            VStr (dquote +:+ "my test" +:+ dquote);
                            VStr "/a/b.ts"] |});
      vm_compute; reflexivity.
  - apply (proj2 (proj2 (test_environment_overlay posix "file:///a/b.ts"
                           "my test" (initial_world (example_editor empty_config)))
                    ltac:(vm_compute; reflexivity))
             {| cl_env := None;
                cl_bin := VStr "deno";
                cl_args := [VStr "test"; VStr "--filter";
                            VStr (dquote +:+ "my test" +:+ dquote);
                            VStr "/a/b.ts"] |});
      vm_compute; reflexivity.
Defined.

(** C6 with [file:///x.ts] active. *)
Lemma cache_request_witness :
  calls (cache (mkContext 0) (mkClient 0)) (initial_world (example_editor empty_config))
  = [EvGetCurrentState; EvProgressBegin "caching" true;
     EvSendRequest (mkClient 0) (cacheReq "file:///x.ts" []); EvProgressEnd].
Proof.
  apply (cache_request (mkContext 0) (mkClient 0)
           (initial_world (example_editor empty_config)) "file:///x.ts").
  reflexivity.
Defined.

(** C7 with the three lines for an answer, the line feeds written out. *)
Lemma status_round_trip_witness :
  calls (status (mkContext 0) (mkClient 0))
    (initial_world
       (status_editor ("line1" +:+ String "010"%char "line2" +:+
                       String "010"%char "line3")))
  = [EvSendRequest (mkClient 0) (virtualTextDocument "deno:/status.md");
     EvEchoLines ["line1"; "line2"; "line3"]]
  /\ calls (status (mkContext 0) (mkClient 0))
       (initial_world (status_editor (String "010"%char "a")))
     = [EvSendRequest (mkClient 0) (virtualTextDocument "deno:/status.md");
        EvEchoLines [EmptyString; "a"]].
Proof.
  split.
  - apply (proj2 (proj2 (status_round_trip (mkContext 0) (mkClient 0)
                           (initial_world
                              (status_editor
                                 ("line1" +:+ String "010"%char "line2" +:+
                                  String "010"%char "line3")))))).
    reflexivity.
  - apply (proj1 (proj2 (status_round_trip (mkContext 0) (mkClient 0)
                           (initial_world
                              (status_editor (String "010"%char "a")))))
             (String "010"%char "a")).
    reflexivity.
Defined.

(** C8, amended, when the user confirms the empty selection and when the
    user dismisses the picker. *)
Lemma initializeWorkspace_check_witness :
  finishes_with (initializeWorkspace posix) checkTSServer
    (initial_world (picker_editor tsserver_config (Some [])))
  /\ editor (after (initializeWorkspace posix)
               (initial_world (picker_editor tsserver_config None)))
     = picker_editor tsserver_config None.
Proof.
  split.
  - apply (proj1 (initializeWorkspace_check posix
                    (initial_world (picker_editor tsserver_config (Some []))))
             []).
    reflexivity.
  - apply (proj2 (initializeWorkspace_check posix
                    (initial_world (picker_editor tsserver_config None)))).
    reflexivity.
Defined.

(** C9 with the TypeScript server enabled, and with no setting. *)
Lemma checkTSServer_idempotent_witness :
  effects (calls checkTSServer (initial_world (example_editor tsserver_config)))
  = [EvConfigUpdate "tsserver" "enable" (VBool false);
     EvNvimCommand "CocRestart" true]
  /\ effects (calls checkTSServer (initial_world (example_editor empty_config))) = [].
Proof.
  split.
  - apply (proj1 (proj2 (checkTSServer_idempotent
                           (initial_world (example_editor tsserver_config))))).
    vm_compute; reflexivity.
  - apply (proj1 (checkTSServer_idempotent (initial_world (example_editor empty_config)))).
    left. vm_compute; reflexivity.
Defined.

(** C10 for a file URI. *)
Lemma showReferences_guard_witness :
  calls (showReferences posix "file:///a/b.ts" (mkPosition 3 7) [])
    (initial_world (example_editor empty_config))
  = [EvExecuteCommand "editor.action.showReferences"
       (mkUri "file" EmptyString "/a/b.ts" EmptyString EmptyString)
       (mkPosition 3 7) []].
Proof.
  apply (proj2 (showReferences_guard posix (mkPosition 3 7) []
                  (initial_world (example_editor empty_config)))
           "file:///a/b.ts"
           (mkUri "file" EmptyString "/a/b.ts" EmptyString EmptyString)).
  - discriminate.
  - reflexivity.
Defined.

(** ** Further properties of the handlers *)

(** *** Computations confined to some calls *)

Lemma confined_ret {A : Type} (P : Event -> Prop) (a : A) : confined P (ret a).
Proof. intros w. by exists []. Qed.

Lemma confined_throw {A : Type} (P : Event -> Prop) (e : exn) :
  confined P (@throw A e).
Proof. intros w. by exists []. Qed.

Lemma confined_lift {A : Type} (P : Event -> Prop) (r : result A) :
  confined P (lift r).
Proof. intros w. by exists []. Qed.

Lemma confined_ask {A : Type} (P : Event -> Prop) (f : World -> A) :
  confined P (ask f).
Proof. intros w. by exists []. Qed.

Lemma confined_emit (P : Event -> Prop) (e : Event) : P e -> confined P (emit e).
Proof. intros He w. exists [e]. repeat split; by repeat constructor. Qed.

Lemma confined_bind {A B : Type} (P : Event -> Prop) (m : M A) (k : A -> M B) :
  confined P m -> (forall a, confined P (k a)) -> confined P (bind m k).
Proof.
  intros Hm Hk w. destruct (Hm w) as (q & Hq & Fq & Ht & Hn).
  unfold after, bind in *. destruct (m w) as [[e|a] w1]; simpl in *.
  - by exists q.
  - destruct (Hk a w1) as (q' & Hq' & Fq' & Ht' & Hn'). unfold after in *.
    exists (q' ++ q). rewrite Hq', Hq, Ht', Hn', Ht, Hn, app_assoc.
    repeat split; try done. by apply Forall_app.
Qed.

Lemma confined_if {A : Type} (P : Event -> Prop) (b : bool) (m1 m2 : M A) :
  confined P m1 -> confined P m2 -> confined P (if b then m1 else m2).
Proof. by destruct b. Qed.

Lemma confined_config_update (P : Event -> Prop) (ns key : string) (v : jsval) :
  P (EvConfigUpdate ns key v) -> confined P (config_update ns key v).
Proof.
  intros He w. exists [EvConfigUpdate ns key v].
  repeat split; by repeat constructor.
Qed.

Lemma confined_withProgress {A : Type} (P : Event -> Prop)
    (title : string) (cancellable : bool) (task : M A) :
  P (EvProgressBegin title cancellable) -> P EvProgressEnd ->
  confined P task -> confined P (window_withProgress title cancellable task).
Proof.
  intros Hb He Ht w.
  destruct (Ht (record (EvProgressBegin title cancellable) w))
    as (q & Hq & Fq & Ht' & Hn').
  unfold after, window_withProgress, bind in *. simpl in *.
  destruct (task _) as [r w1]. simpl in *.
  exists (EvProgressEnd :: q ++ [EvProgressBegin title cancellable]).
  rewrite Hq, Ht', Hn'. repeat split; try done.
  - simpl. by rewrite <- app_assoc.
  - constructor; [done|]. apply Forall_app. split; [done|]. by constructor.
Qed.

Lemma confined_calls {A : Type} (P : Event -> Prop) (m : M A) (w : World) :
  confined P m ->
  Forall P (calls m w)
  /\ terminal (after m w) = terminal w
  /\ next_terminal (after m w) = next_terminal w.
Proof.
  intros Hm. destruct (Hm w) as (q & Hq & Fq & Ht & Hn).
  rewrite (calls_history m w (rev q)) by by rewrite rev_involutive.
  split; [by apply Forall_rev|done].
Qed.

Ltac call_ok :=
  solve [ done | reflexivity | split; done | unfold quiet_call; split; done ].

Ltac confine :=
  repeat first
    [ apply confined_withProgress; [ call_ok | call_ok | ]
    | apply confined_config_update; call_ok
    | apply confined_bind; [ | intros ? ]
    | apply confined_if
    | apply confined_ret
    | apply confined_throw
    | apply confined_lift
    | apply confined_ask
    | apply confined_emit; call_ok
    | match goal with
      | |- confined _ (match ?x with _ => _ end) => destruct x
      end ].

(** *** Computations that leave the editor alone *)

Lemma keeps_editor_ret {A : Type} (a : A) : keeps_editor (ret a).
Proof. by intros w. Qed.

Lemma keeps_editor_throw {A : Type} (e : exn) : keeps_editor (@throw A e).
Proof. by intros w. Qed.

Lemma keeps_editor_lift {A : Type} (r : result A) : keeps_editor (lift r).
Proof. by intros w. Qed.

Lemma keeps_editor_ask {A : Type} (f : World -> A) : keeps_editor (ask f).
Proof. by intros w. Qed.

Lemma keeps_editor_emit (e : Event) : keeps_editor (emit e).
Proof. by intros w. Qed.

Lemma keeps_editor_bind {A B : Type} (m : M A) (k : A -> M B) :
  keeps_editor m -> (forall a, keeps_editor (k a)) -> keeps_editor (bind m k).
Proof.
  intros Hm Hk w. pose proof (Hm w) as H1.
  unfold after, bind in *. destruct (m w) as [[e|a] w1]; simpl in *; [done|].
  pose proof (Hk a w1) as H2. unfold after in H2. by rewrite H2.
Qed.

Lemma keeps_editor_if {A : Type} (b : bool) (m1 m2 : M A) :
  keeps_editor m1 -> keeps_editor m2 -> keeps_editor (if b then m1 else m2).
Proof. by destruct b. Qed.

Lemma keeps_editor_withProgress {A : Type}
    (title : string) (cancellable : bool) (task : M A) :
  keeps_editor task -> keeps_editor (window_withProgress title cancellable task).
Proof.
  intros Ht w.
  pose proof (Ht (record (EvProgressBegin title cancellable) w)) as H.
  unfold after, window_withProgress, bind in *. simpl in *.
  by destruct (task _) as [r w1].
Qed.

Ltac keep_editor :=
  repeat first
    [ apply keeps_editor_withProgress
    | apply keeps_editor_bind; [ | intros ? ]
    | apply keeps_editor_if
    | apply keeps_editor_ret
    | apply keeps_editor_throw
    | apply keeps_editor_lift
    | apply keeps_editor_ask
    | apply keeps_editor_emit
    | match goal with
      | |- keeps_editor (match ?x with _ => _ end) => destruct x
      end ].

(** *** The handlers, one by one *)

Lemma cache_confined (ctx : ExtensionContext) (client : LanguageClient) :
  confined quiet_call (cache ctx client).
Proof.
  unfold cache, workspace_getCurrentState, client_sendRequest. confine.
Qed.

Lemma status_confined (ctx : ExtensionContext) (client : LanguageClient) :
  confined quiet_call (status ctx client).
Proof. unfold status, client_sendRequest, window_echoLines. confine. Qed.

Lemma welcome_confined (ctx : ExtensionContext) (client : LanguageClient) :
  confined (fun _ => False) (welcome ctx client).
Proof. unfold welcome. confine. Qed.

Lemma reloadImportRegistries_confined
    (ctx : ExtensionContext) (client : LanguageClient) :
  confined quiet_call (reloadImportRegistries ctx client).
Proof. unfold reloadImportRegistries, client_sendRequest. confine. Qed.

Lemma restart_confined (ctx : ExtensionContext) (client : LanguageClient) :
  confined quiet_call (restart ctx client).
Proof. unfold restart, client_stop, client_start. confine. Qed.

Lemma showReferences_confined (I : Imports) (uri : string)
    (position : Position) (locations : list Location) :
  confined (fun e => quiet_call e /\ client_event e = false)
    (showReferences I uri position locations).
Proof. unfold showReferences, commands_executeCommand. confine. Qed.

Lemma checkTSServer_confined :
  confined (fun e => terminal_event e = false /\ client_event e = false)
    checkTSServer.
Proof.
  unfold checkTSServer, workspace_getConfiguration, config_get, nvim_command.
  confine.
Qed.

Lemma initializeWorkspace_confined (I : Imports) :
  confined (fun e => terminal_event e = false /\ client_event e = false)
    (initializeWorkspace I).
Proof.
  pose proof checkTSServer_confined as Hc.
  unfold initializeWorkspace, extensions_all, window_showPickerDialog,
    workspace_getConfiguration, window_showMessage.
  cbv zeta. confine; try exact Hc.
Qed.

Lemma cache_keeps_editor (ctx : ExtensionContext) (client : LanguageClient) :
  keeps_editor (cache ctx client).
Proof. unfold cache, workspace_getCurrentState, client_sendRequest. keep_editor. Qed.

Lemma status_keeps_editor (ctx : ExtensionContext) (client : LanguageClient) :
  keeps_editor (status ctx client).
Proof. unfold status, client_sendRequest, window_echoLines. keep_editor. Qed.

Lemma restart_keeps_editor (ctx : ExtensionContext) (client : LanguageClient) :
  keeps_editor (restart ctx client).
Proof. unfold restart, client_stop, client_start. keep_editor. Qed.

Lemma reloadImportRegistries_keeps_editor
    (ctx : ExtensionContext) (client : LanguageClient) :
  keeps_editor (reloadImportRegistries ctx client).
Proof. unfold reloadImportRegistries, client_sendRequest. keep_editor. Qed.

Lemma showReferences_keeps_editor (I : Imports) (uri : string)
    (position : Position) (locations : list Location) :
  keeps_editor (showReferences I uri position locations).
Proof. unfold showReferences, commands_executeCommand. keep_editor. Qed.

Lemma test_keeps_editor (I : Imports) (uri name : string) :
  keeps_editor (test I uri name).
Proof.
  intros w. destruct (test_run I uri name w) as (q & _ & Hq & Hrun).
  unfold after at 1. rewrite Hrun.
  destruct (outcome (test_command I uri name) w) as [e|cl].
  - fold (after (test_command I uri name) w). by rewrite Hq.
  - rewrite test_terminal_run, Hq. simpl.
    by destruct (ed_createTerminal (editor w)).
Qed.

Lemma test_command_config_reads (I : Imports) (uri name : string) :
  confined (fun e => config_read_event e = true) (test_command I uri name).
Proof.
  unfold test_command, workspace_getConfiguration, config_get_default,
    config_has, config_get.
  confine.
Qed.

Lemma test_calls_kinds (I : Imports) (uri name : string) (w : World) :
  Forall (fun e => config_read_event e = true \/ terminal_event e = true)
    (calls (test I uri name) w).
Proof.
  destruct (test_calls I uri name w) as [_ ->].
  apply Forall_app. split.
  - destruct (confined_calls _ _ w (test_command_config_reads I uri name))
      as [H _].
    eapply Forall_impl; [exact H|]. by left.
  - destruct (outcome (test_command I uri name) w) as [e|cl]; [constructor|].
    rewrite test_terminal_calls.
    destruct (terminal (after (test_command I uri name) w));
      destruct (ed_createTerminal _); repeat constructor; by right.
Qed.

Lemma effects_none (l : list Event) :
  Forall (fun e => effect_event e = false) l -> effects l = [].
Proof.
  induction 1 as [|e l He _ IH]; [done|].
  unfold effects in *. simpl. by rewrite He.
Qed.

(** *** What the handlers never do *)

(** X1.  No handler but [test] touches a terminal: it leaves the module
    variable and the supply of terminals as they were and makes no call
    that creates, disposes of or writes to a terminal. *)
Theorem only_test_touches_terminals (I : Imports) (c : Command) (w : World) :
  is_test c = false ->
  terminal (perform I c w) = terminal w
  /\ next_terminal (perform I c w) = next_terminal w
  /\ Forall (fun e => terminal_event e = false) (calls_of I c w).
Proof.
  intros Hc.
  assert (forall (A : Type) (P : Event -> Prop) (m : M A),
             (forall e, P e -> terminal_event e = false) ->
             confined P m ->
             terminal (after m w) = terminal w
             /\ next_terminal (after m w) = next_terminal w
             /\ Forall (fun e => terminal_event e = false) (calls m w)) as H.
  { intros A P m HP Hm. destruct (confined_calls P m w Hm) as (F & Ht & Hn).
    repeat split; try done. eapply Forall_impl; [exact F|exact HP]. }
  destruct c; try discriminate; unfold perform, calls_of.
  - eapply H; [|apply cache_confined]; intros e; unfold quiet_call; tauto.
  - eapply H; [|apply initializeWorkspace_confined]; intros e; unfold quiet_call; tauto.
  - eapply H; [|apply showReferences_confined]; intros e; unfold quiet_call; tauto.
  - eapply H; [|apply status_confined]; intros e; unfold quiet_call; tauto.
  - eapply H; [|apply welcome_confined]; intros e; unfold quiet_call; tauto.
  - eapply H; [|apply reloadImportRegistries_confined]; intros e; unfold quiet_call; tauto.
  - eapply H; [|apply restart_confined]; intros e; unfold quiet_call; tauto.
  - eapply H; [|apply checkTSServer_confined]; intros e; unfold quiet_call; tauto.
Qed.

(** X2.  No handler but [initializeWorkspace] and [checkTSServer] changes
    anything in the editor: the configuration and the rest of the editor
    state are as before, and no configuration write and no host command is
    among the calls.  This holds whether the handler succeeds or fails. *)
Theorem only_setup_writes (I : Imports) (c : Command) (w : World) :
  is_setup c = false ->
  editor (perform I c w) = editor w /\ effects (calls_of I c w) = [].
Proof.
  intros Hc.
  assert (forall (A : Type) (P : Event -> Prop) (m : M A),
             (forall e, P e -> effect_event e = false) ->
             confined P m -> effects (calls m w) = []) as H.
  { intros A P m HP Hm. destruct (confined_calls P m w Hm) as (F & _).
    apply effects_none. eapply Forall_impl; [exact F|exact HP]. }
  destruct c; try discriminate; unfold perform, calls_of; (split; [|]).
  - apply cache_keeps_editor.
  - eapply H; [|apply cache_confined]; intros e; unfold quiet_call; tauto.
  - apply showReferences_keeps_editor.
  - eapply H; [|apply showReferences_confined]; intros e; unfold quiet_call; tauto.
  - apply status_keeps_editor.
  - eapply H; [|apply status_confined]; intros e; unfold quiet_call; tauto.
  - apply test_keeps_editor.
  - apply effects_none.
    eapply Forall_impl; [apply test_calls_kinds|].
    intros e [He|He]; by destruct e.
  - done.
  - eapply H; [|apply welcome_confined]; intros e; unfold quiet_call; tauto.
  - apply reloadImportRegistries_keeps_editor.
  - eapply H; [|apply reloadImportRegistries_confined]; intros e; unfold quiet_call; tauto.
  - apply restart_keeps_editor.
  - eapply H; [|apply restart_confined]; intros e; unfold quiet_call; tauto.
Qed.

(** X3.  Only [cache], [status], [reloadImportRegistries] and [restart]
    reach the language client: every other handler sends no request and
    neither stops nor starts the client. *)
Theorem only_client_handlers_reach_server
    (I : Imports) (c : Command) (w : World) :
  is_client c = false ->
  Forall (fun e => client_event e = false) (calls_of I c w).
Proof.
  intros Hc.
  assert (forall (A : Type) (P : Event -> Prop) (m : M A),
             (forall e, P e -> client_event e = false) ->
             confined P m ->
             Forall (fun e => client_event e = false) (calls m w)) as H.
  { intros A P m HP Hm. destruct (confined_calls P m w Hm) as (F & _).
    eapply Forall_impl; [exact F|exact HP]. }
  destruct c; try discriminate; unfold perform, calls_of.
  - eapply H; [|apply initializeWorkspace_confined]; intros e; unfold quiet_call; tauto.
  - eapply H; [|apply showReferences_confined]; intros e; unfold quiet_call; tauto.
  - eapply Forall_impl; [apply test_calls_kinds|].
    intros e [He|He]; by destruct e.
  - eapply H; [|apply welcome_confined]; intros e; unfold quiet_call; tauto.
  - eapply H; [|apply checkTSServer_confined]; intros e; unfold quiet_call; tauto.
Qed.

(** *** Any mix of handlers *)

Lemma slot_invariant_quiet (w w' : World) (q : list Event) :
  slot_invariant w ->
  history w' = q ++ history w ->
  Forall (fun e => terminal_event e = false) q ->
  terminal w' = terminal w ->
  next_terminal w' = next_terminal w ->
  slot_invariant w'.
Proof.
  intros [Hl Hc Hd Hf Ha] Hq Fq Ht Hn.
  split; rewrite ?Hq, ?Ht, ?Hn,
    ?live_quiet, ?created_quiet, ?disposed_quiet by done; try done.
  by apply (at_all_times_quiet (fun l => length l <= 1)).
Qed.

Lemma well_used_quiet (q h : list Event) :
  Forall (fun e => terminal_event e = false) q ->
  well_used h -> well_used (q ++ h).
Proof.
  intros Fq Hh. induction Fq as [|e q He Fq IH]; [done|].
  simpl. split; [|done]. by destruct e.
Qed.

Lemma well_used_test (I : Imports) (uri name : string) (w : World) :
  slot_invariant w -> well_used (history w) ->
  well_used (history (after (test I uri name) w)).
Proof.
  intros [Hl _ _ _ _] Hu.
  destruct (test_run I uri name w) as (q & Fq & Hq & Hrun).
  apply quiet_weaken in Fq.
  unfold after at 1. rewrite Hrun.
  destruct (outcome (test_command I uri name) w) as [e|cl].
  - fold (after (test_command I uri name) w). rewrite Hq. simpl.
    by apply well_used_quiet.
  - rewrite test_terminal_run, Hq. simpl.
    pose proof (well_used_quiet q _ Fq Hu) as Hq'.
    destruct (terminal w) as [t|]; destruct (ed_createTerminal (editor w));
      simpl; repeat split; try done; try (by left).
    all: rewrite live_quiet, Hl by done; by left.
Qed.

Lemma discipline_perform (I : Imports) (c : Command) (w : World) :
  slot_invariant w /\ well_used (history w) ->
  slot_invariant (perform I c w) /\ well_used (history (perform I c w)).
Proof.
  intros [Hs Hu].
  destruct (is_test c) eqn:Hc.
  - destruct c; try discriminate. simpl.
    split; [by apply slot_invariant_test | by apply well_used_test].
  - assert (confined (fun e => terminal_event e = false)
              (fun w => (inr tt, perform I c w))) as Hconf.
    { assert (forall (A : Type) (P : Event -> Prop) (m : M A),
                 (forall e, P e -> terminal_event e = false) ->
                 confined P m ->
                 confined (fun e => terminal_event e = false)
                   (fun w => (inr tt, after m w))) as H.
      { intros A P m HP Hm w0. destruct (Hm w0) as (q & Hq & Fq & Ht & Hn).
        exists q. repeat split; try done.
        eapply Forall_impl; [exact Fq|exact HP]. }
      destruct c; try discriminate; unfold perform.
      - eapply H; [|apply cache_confined]; intros e; unfold quiet_call; tauto.
      - eapply H; [|apply initializeWorkspace_confined]; intros e; unfold quiet_call; tauto.
      - eapply H; [|apply showReferences_confined];
          intros e; unfold quiet_call; tauto.
      - eapply H; [|apply status_confined]; intros e; unfold quiet_call; tauto.
      - eapply H; [|apply welcome_confined]; intros e; unfold quiet_call; tauto.
      - eapply H; [|apply reloadImportRegistries_confined];
          intros e; unfold quiet_call; tauto.
      - eapply H; [|apply restart_confined]; intros e; unfold quiet_call; tauto.
      - eapply H; [|apply checkTSServer_confined]; intros e; unfold quiet_call; tauto. }
    destruct (Hconf w) as (q & Hq & Fq & Ht & Hn).
    unfold after in *. simpl in *. split.
    + by apply (slot_invariant_quiet w _ q).
    + rewrite Hq. by apply well_used_quiet.
Qed.

Lemma discipline_perform_all (I : Imports) (steps : list Step) (w : World) :
  slot_invariant w /\ well_used (history w) ->
  slot_invariant (perform_all I steps w)
  /\ well_used (history (perform_all I steps w)).
Proof.
  revert w. induction steps as [|s steps IH]; intros w Hw; [done|].
  simpl. apply IH, discipline_perform.
  destruct Hw. split; [by apply slot_invariant_set_editor | done].
Qed.

(** X4.  After any sequence of invocations of the nine handlers, in any
    order and with any editor state at each of them, started when the
    extension is loaded: at every moment of the history at most one
    terminal was live, the live terminal is the one the module variable
    holds, and every other terminal ever created has been disposed of. *)
Theorem single_live_terminal_any_handlers
    (I : Imports) (steps : list Step) (e0 : Editor) :
  let w := perform_all I steps (initial_world e0) in
  at_all_times (fun h => length (live h) <= 1) (history w)
  /\ live (history w) = option_list (terminal w)
  /\ (forall t, t ∈ created (history w) -> terminal w ≠ Some t ->
                t ∈ disposed (history w)).
Proof.
  intros w.
  assert (slot_invariant w) as [Hl Hc Hd Hf Ha].
  { apply discipline_perform_all. split; [apply slot_invariant_initial|done]. }
  split; [done|]. split; [done|].
  intros t Ht Hne.
  destruct (created_live_or_disposed _ _ Ht) as [Hin|]; [|done].
  rewrite Hl in Hin. destruct (terminal w) as [t'|]; simpl in Hin.
  - apply list_elem_of_singleton in Hin. by subst.
  - by apply elem_of_nil in Hin.
Qed.

(** X5.  Along any such sequence, every disposal and every text written
    went to a terminal that was live at that moment: no terminal is
    disposed of twice, and none is written to after its disposal. *)
Theorem terminals_used_while_live
    (I : Imports) (steps : list Step) (e0 : Editor) :
  well_used (history (perform_all I steps (initial_world e0))).
Proof.
  apply discipline_perform_all. split; [apply slot_invariant_initial|done].
Qed.

(** *** The test command, for every configuration *)

Lemma test_command_built (I : Imports) (uri name : string) (w : World)
    (configured : list jsval) (u : Uri) :
  js_spread I (default (VArr [])
                 (ed_config (editor w) !! (EXTENSION_NS I, "codeLens.testArgs")))
  = inr configured ->
  Uri_parse I uri = inr u ->
  exists cl,
    outcome (test_command I uri name) w = inr cl
    /\ cl_bin cl
       = default (VStr "deno") (ed_config (editor w) !! (EXTENSION_NS I, "path"))
    /\ cl_args cl
       = [VStr "test"] ++ configured ++
         (if bool_decide (is_Some (ed_config (editor w)
                                     !! (EXTENSION_NS I, "unstable")))
          then [VStr "--unstable"] else []) ++
         match ed_config (editor w) !! (EXTENSION_NS I, "importMap") with
         | Some v => [VStr "--import-map"; VStr (js_string v)]
         | None => []
         end ++
         [VStr "--filter"; VStr (dquote +:+ name +:+ dquote);
          VStr (Uri_fsPath I u)].
Proof.
  intros Hs Hu.
  pose proof (test_command_outcome I uri name w) as Hout. simpl in Hout.
  rewrite Hs, Hu in Hout. eexists. split; [exact Hout|]. split; [done|].
  simpl. by rewrite <- !app_assoc.
Qed.

(** X6.  For every configuration, when the configured test arguments can
    be spread and the URI parses, the executable is the [path] setting, or
    [deno] without one, and the arguments are, in this order: [test], the
    configured arguments, [--unstable] when the [unstable] key is present,
    [--import-map] and the [importMap] value as a string when that key is
    present, [--filter], the name between two double-quote characters with
    nothing escaped, and the file-system path of the URI. *)
Theorem test_arguments (I : Imports) (uri name : string) (w : World)
    (configured : list jsval) (u : Uri) :
  js_spread I (default (VArr [])
                 (ed_config (editor w) !! (EXTENSION_NS I, "codeLens.testArgs")))
  = inr configured ->
  Uri_parse I uri = inr u ->
  exists cl,
    outcome (test_command I uri name) w = inr cl
    /\ cl_bin cl
       = default (VStr "deno") (ed_config (editor w) !! (EXTENSION_NS I, "path"))
    /\ cl_args cl
       = [VStr "test"] ++ configured ++
         (if bool_decide (is_Some (ed_config (editor w)
                                     !! (EXTENSION_NS I, "unstable")))
          then [VStr "--unstable"] else []) ++
         match ed_config (editor w) !! (EXTENSION_NS I, "importMap") with
         | Some v => [VStr "--import-map"; VStr (js_string v)]
         | None => []
         end ++
         [VStr "--filter"; VStr (dquote +:+ name +:+ dquote);
          VStr (Uri_fsPath I u)].
Proof. apply test_command_built. Qed.

(** X7.  A configuration that cannot be used stops the test command before
    any call on a terminal.  When [codeLens.testArgs] is neither an array
    nor a string the outcome is a TypeError, whatever the URI; when the
    arguments can be spread and [Uri.parse] rejects the URI, the outcome is
    the exception of [Uri.parse].  In both cases the stored handle is the
    one before. *)
Theorem test_configuration_errors (I : Imports) (uri name : string) (w : World) :
  (forall v,
      ed_config (editor w) !! (EXTENSION_NS I, "codeLens.testArgs") = Some v ->
      iterable v = false ->
      (exists msg, outcome (test I uri name) w = inl (TypeError msg))
      /\ terminal (after (test I uri name) w) = terminal w
      /\ Forall (fun e => terminal_event e = false) (calls (test I uri name) w))
  /\ (forall configured e,
      js_spread I (default (VArr [])
                     (ed_config (editor w)
                        !! (EXTENSION_NS I, "codeLens.testArgs")))
      = inr configured ->
      Uri_parse I uri = inl e ->
      outcome (test I uri name) w = inl e
      /\ terminal (after (test I uri name) w) = terminal w
      /\ Forall (fun e => terminal_event e = false) (calls (test I uri name) w)).
Proof.
  pose proof (test_command_outcome I uri name w) as Hout. simpl in Hout.
  destruct (test_run I uri name w) as (q & Fq & Hq & Hrun).
  destruct (test_calls I uri name w) as [Fc Hc].
  assert (forall e, outcome (test_command I uri name) w = inl e ->
            outcome (test I uri name) w = inl e
            /\ terminal (after (test I uri name) w) = terminal w
            /\ Forall (fun e => terminal_event e = false)
                 (calls (test I uri name) w)) as Hfail.
  { intros e He. rewrite He in Hrun, Hc. unfold outcome, after in *.
    rewrite Hrun. simpl. rewrite Hq. simpl. repeat split.
    rewrite Hc, app_nil_r. by apply quiet_weaken. }
  split.
  - intros v Hv Hi. rewrite Hv in Hout. simpl in Hout.
    destruct v; try discriminate; simpl in Hout;
      destruct (Hfail _ Hout) as (H1 & H2 & H3); eauto.
  - intros configured e Hs Hu. rewrite Hs, Hu in Hout. by apply Hfail.
Qed.

(** X8.  When the command line is built and the host cannot open a
    terminal, the exception of the host is the outcome of the test
    command; the terminal that was stored has already been disposed of,
    the module variable is left undefined, no terminal is created and no
    text is written. *)
Theorem test_create_failure (I : Imports) (uri name : string) (w : World)
    (cl : CommandLine) (e : exn) :
  outcome (test_command I uri name) w = inr cl ->
  ed_createTerminal (editor w) = inl e ->
  outcome (test I uri name) w = inl e
  /\ terminal (after (test I uri name) w) = None
  /\ next_terminal (after (test I uri name) w) = next_terminal w
  /\ calls (test I uri name) w
     = calls (test_command I uri name) w ++
       match terminal w with Some t => [EvDispose t] | None => [] end.
Proof.
  intros Hcl He.
  destruct (test_run I uri name w) as (q & Fq & Hq & Hrun).
  destruct (test_calls I uri name w) as [_ Hc].
  rewrite Hcl in Hrun, Hc. rewrite test_terminal_run, Hq in Hrun.
  rewrite test_terminal_calls, Hq in Hc. simpl in *. rewrite He in Hrun, Hc.
  unfold outcome, after. rewrite Hrun, Hc. simpl.
  by rewrite app_nil_r.
Qed.

Lemma append_assoc (a b c : string) : (a +:+ b) +:+ c = a +:+ b +:+ c.
Proof.
  induction a as [|x a IH]; [done|].
  change (String x ((a +:+ b) +:+ c) = String x (a +:+ b +:+ c)).
  by f_equal.
Qed.

Lemma concat_app_cons (sep x y : string) (l1 l2 : list string) :
  String.concat sep ((x :: l1) ++ y :: l2)
  = String.concat sep (x :: l1) +:+ sep +:+ String.concat sep (y :: l2).
Proof.
  revert x. induction l1 as [|z l1 IH]; intros x; [done|].
  change (String.concat sep ((x :: z :: l1) ++ y :: l2))
    with (x +:+ sep +:+ String.concat sep ((z :: l1) ++ y :: l2)).
  rewrite IH.
  change (String.concat sep (x :: z :: l1))
    with (x +:+ sep +:+ String.concat sep (z :: l1)).
  by rewrite !append_assoc.
Qed.

(** X9.  For every configuration, the text written to the new terminal
    is the executable, [test] and the middle arguments joined by single
    spaces, followed by [ --filter ], the name between two double-quote
    characters exactly as it was given, a space and the file-system path:
    nothing in the name or the path is escaped. *)
Theorem test_text_shape (I : Imports) (uri name : string) (w : World)
    (configured : list jsval) (u : Uri) :
  js_spread I (default (VArr [])
                 (ed_config (editor w) !! (EXTENSION_NS I, "codeLens.testArgs")))
  = inr configured ->
  Uri_parse I uri = inr u ->
  ed_createTerminal (editor w) = inr tt ->
  let bin :=
    default (VStr "deno") (ed_config (editor w) !! (EXTENSION_NS I, "path")) in
  let middle :=
    configured ++
    (if bool_decide (is_Some (ed_config (editor w)
                                !! (EXTENSION_NS I, "unstable")))
     then [VStr "--unstable"] else []) ++
    match ed_config (editor w) !! (EXTENSION_NS I, "importMap") with
    | Some v => [VStr "--import-map"; VStr (js_string v)]
    | None => []
    end in
  exists q,
    calls (test I uri name) w
    = q ++ [EvSendText (next_terminal w)
              (String.concat " " (js_string bin :: "test" :: map arg_text middle)
               +:+ " --filter " +:+ dquote +:+ name +:+ dquote
               +:+ " " +:+ Uri_fsPath I u)]
    /\ Forall (fun e => forall t text, e ≠ EvSendText t text) q.
Proof.
  intros Hs Hu Hok bin middle.
  destruct (test_command_built I uri name w configured u Hs Hu)
    as (cl & Hcl & Hbin & Hargs).
  destruct (test_calls_created _ _ _ _ _ Hcl Hok) as (q & Hq & Hcr).
  exists (q ++ [EvCreateTerminal (next_terminal w) name (ed_root (editor w))
                  (cl_env cl)]).
  split.
  - rewrite Hq, <- app_assoc. simpl. do 3 f_equal.
    rewrite Hbin, Hargs. fold bin.
    unfold js_join. fold arg_text.
    replace ([VStr "test"] ++ configured ++
             (if bool_decide (is_Some (ed_config (editor w)
                                         !! (EXTENSION_NS I, "unstable")))
              then [VStr "--unstable"] else []) ++
             match ed_config (editor w) !! (EXTENSION_NS I, "importMap") with
             | Some v => [VStr "--import-map"; VStr (js_string v)]
             | None => []
             end ++
             [VStr "--filter"; VStr (dquote +:+ name +:+ dquote);
              VStr (Uri_fsPath I u)])
      with ((VStr "test" :: middle) ++
            [VStr "--filter"; VStr (dquote +:+ name +:+ dquote);
             VStr (Uri_fsPath I u)])
      by (unfold middle; simpl; by rewrite <- !app_assoc).
    rewrite map_app. simpl map.
    rewrite (concat_app_cons " " "test" "--filter").
    change (String.concat " "
              (js_string bin :: "test" :: map arg_text middle))
      with (js_string bin +:+ " " +:+
            String.concat " " ("test" :: map arg_text middle)).
    simpl. by rewrite !append_assoc.
  - destruct (test_calls I uri name w) as [Fc Hc].
    destruct (test_run I uri name w) as (q' & _ & Hq' & _).
    rewrite Hcl, test_terminal_calls, Hq' in Hc. simpl in Hc.
    rewrite Hok in Hc. rewrite Hc in Hq.
    assert (q = calls (test_command I uri name) w ++
                match terminal w with Some t => [EvDispose t] | None => [] end)
      as ->.
    { rewrite !app_assoc in Hq.
      change [?a; ?b] with ([a] ++ [b]) in Hq. rewrite !app_assoc in Hq.
      apply app_inj_tail in Hq as [Hq _].
      by apply app_inj_tail in Hq as [Hq _]. }
    apply Forall_app. split; [apply Forall_app; split|].
    + eapply Forall_impl; [exact Fc|]. by intros e' [He _] t' text ->.
    + destruct (terminal w); by repeat constructor.
    + by repeat constructor.
Qed.

(** *** Failures of the collaborators *)

(** X10.  When the editor cannot give the current state, the cache command
    fails with that exception right after asking: no progress scope is
    opened and no request is sent. *)
Theorem cache_without_document (ctx : ExtensionContext) (client : LanguageClient)
    (w : World) (e : exn) :
  ed_current (editor w) = inl e ->
  outcome (cache ctx client) w = inl e
  /\ calls (cache ctx client) w = [EvGetCurrentState].
Proof.
  intros He.
  assert (cache ctx client w = (inl e, record EvGetCurrentState w)) as Hrun.
  { unfold cache, workspace_getCurrentState, bind; simpl. by rewrite He. }
  split; [unfold outcome; by rewrite Hrun|].
  apply calls_history. unfold after. by rewrite Hrun.
Qed.

(** X11.  When the request for the status document fails, the status
    command fails with that exception and echoes nothing. *)
Theorem status_request_failure (ctx : ExtensionContext) (client : LanguageClient)
    (w : World) (e : exn) :
  ed_respond (editor w) (virtualTextDocument "deno:/status.md") = inl e ->
  outcome (status ctx client) w = inl e
  /\ calls (status ctx client) w
     = [EvSendRequest client (virtualTextDocument "deno:/status.md")].
Proof.
  intros He.
  assert (status ctx client w
          = (inl e, record (EvSendRequest client
                              (virtualTextDocument "deno:/status.md")) w))
    as Hrun.
  { unfold status, client_sendRequest, bind; simpl. by rewrite He. }
  split; [unfold outcome; by rewrite Hrun|].
  apply calls_history. unfold after. by rewrite Hrun.
Qed.

(** X12.  With a non-empty [uri] that [Uri.parse] rejects,
    [showReferences] fails with the exception of [Uri.parse]: no editor
    command is executed and the world is the one it started from. *)
Theorem showReferences_rejected_uri (I : Imports) (uri : string)
    (position : Position) (locations : list Location) (w : World) (e : exn) :
  uri ≠ EmptyString ->
  Uri_parse I uri = inl e ->
  showReferences I uri position locations w = (inl e, w).
Proof.
  intros Hne He. unfold showReferences. rewrite bool_decide_false by done.
  unfold bind, lift. by rewrite He.
Qed.

(** *** The lines of the status document *)

Lemma js_split_length (sep : ascii) (s : string) :
  length (js_split sep s) = S (count_char sep s).
Proof.
  induction s as [|c s IH]; simpl; [done|].
  destruct (bool_decide (c = sep)); simpl; [by rewrite IH|].
  destruct (js_split sep s) as [|p r]; simpl in *; [done|]. done.
Qed.

Lemma js_split_prefix (sep : ascii) (p s : string) :
  occurs sep p = false ->
  js_split sep (p +:+ s)
  = match js_split sep s with
    | [] => [p]
    | piece :: rest => (p +:+ piece) :: rest
    end.
Proof.
  induction p as [|c p IH]; intros Hp.
  - change (EmptyString +:+ s) with s.
    pose proof (js_split_nonempty sep s). by destruct (js_split sep s).
  - simpl in Hp. apply orb_false_iff in Hp as [Hc Hp].
    change (String c p +:+ s) with (String c (p +:+ s)).
    simpl. rewrite Hc, (IH Hp).
    by destruct (js_split sep s).
Qed.

Lemma append_nil_r (p : string) : p +:+ EmptyString = p.
Proof.
  induction p as [|c p IH]; [done|].
  change (String c (p +:+ EmptyString) = String c p). by f_equal.
Qed.

Lemma js_split_concat (sep : ascii) (pieces : list string) :
  pieces ≠ [] ->
  Forall (fun piece => occurs sep piece = false) pieces ->
  js_split sep (String.concat (String sep EmptyString) pieces) = pieces.
Proof.
  intros Hne F. induction F as [|p l Hp F IH]; [done|].
  destruct l as [|p' l].
  - change (String.concat (String sep EmptyString) [p]) with p.
    pose proof (js_split_prefix sep p EmptyString Hp) as H.
    rewrite append_nil_r in H. rewrite H. simpl. by rewrite append_nil_r.
  - change (String.concat (String sep EmptyString) (p :: p' :: l))
      with (p +:+ String sep (String.concat (String sep EmptyString) (p' :: l))).
    rewrite (js_split_prefix sep p _ Hp).
    change (js_split sep (String sep ?x))
      with (if bool_decide (sep = sep) then EmptyString :: js_split sep x
            else match js_split sep x with
                 | [] => [String sep EmptyString]
                 | piece :: rest => String sep piece :: rest
                 end).
    rewrite bool_decide_true by done.
    rewrite IH by done. by rewrite append_nil_r.
Qed.

(** X13.  The status command echoes one line more than the answer has
    line feeds: an empty answer is echoed as one empty line, and an answer
    that ends with a line feed as its lines followed by an empty one. *)
Theorem status_line_count (ctx : ExtensionContext) (client : LanguageClient)
    (w : World) (r : string) :
  ed_respond (editor w) (virtualTextDocument "deno:/status.md") = inr (VStr r) ->
  exists lines,
    calls (status ctx client) w
    = [EvSendRequest client (virtualTextDocument "deno:/status.md");
       EvEchoLines lines]
    /\ length lines = S (count_char newline r)
    /\ (r = EmptyString -> lines = [EmptyString])
    /\ forall r', r = r' +:+ String newline EmptyString ->
                  lines = js_split newline r' ++ [EmptyString].
Proof.
  intros Hr. exists (js_split newline r). split; [|split; [|split]].
  - apply calls_history. unfold after. by rewrite (status_run _ _ _ r).
  - apply js_split_length.
  - by intros ->.
  - intros r' ->. clear. induction r' as [|c r' IH]; [done|].
    change (String c r' +:+ String newline EmptyString)
      with (String c (r' +:+ String newline EmptyString)).
    simpl. rewrite IH.
    destruct (bool_decide (c = newline)); [done|].
    pose proof (js_split_nonempty newline r').
    by destruct (js_split newline r').
Qed.

(** X14.  When the answer of the server is some lines joined by line
    feeds, at least one line and none with a line feed inside, the status
    command echoes exactly these lines. *)
Theorem status_echoes_server_lines
    (ctx : ExtensionContext) (client : LanguageClient)
    (w : World) (lines : list string) :
  lines ≠ [] ->
  Forall (fun l => occurs newline l = false) lines ->
  ed_respond (editor w) (virtualTextDocument "deno:/status.md")
  = inr (VStr (String.concat (String newline EmptyString) lines)) ->
  calls (status ctx client) w
  = [EvSendRequest client (virtualTextDocument "deno:/status.md");
     EvEchoLines lines].
Proof.
  intros Hne F Hr. apply calls_history. unfold after.
  rewrite (status_run _ _ _ _ Hr). simpl.
  by rewrite js_split_concat.
Qed.

(** *** Initialize-Workspace, call by call *)

Lemma initializeWorkspace_answered (I : Imports) (w : World)
    (settings : list string) :
  let items :=
    if bool_decide ("coc-prettier" ∈ ed_extensions (editor w))
    then ["Enable Deno linting?"; "Enable Deno unstable APIs?";
          "Disable coc-prettier for current project?"]
    else ["Enable Deno linting?"; "Enable Deno unstable APIs?"] in
  let ns := EXTENSION_NS I in
  let lint := VBool (includes settings "Enable Deno linting?") in
  let unstable := VBool (includes settings "Enable Deno unstable APIs?") in
  let languages := VArr [VStr "typescript"; VStr "javascript"] in
  let chosen := includes settings "Disable coc-prettier for current project?" in
  let written :=
    <[(ns, "unstable") := unstable]>
      (<[(ns, "lint") := lint]>
         (<[(ns, "enable") := VBool true]> (ed_config (editor w)))) in
  ed_picker (editor w) items "Initialize Deno Project" = inr (Some settings) ->
  exists w1,
    initializeWorkspace I w = (inr VUndefined, after checkTSServer w1)
    /\ history w1
       = EvShowMessage "Deno is now setup in this workspace."
         :: (if chosen
             then [EvConfigUpdate "prettier" "disableLanguages" languages;
                   EvGetConfiguration "prettier"]
             else []) ++
         [EvConfigUpdate ns "unstable" unstable;
          EvConfigUpdate ns "lint" lint;
          EvConfigUpdate ns "enable" (VBool true);
          EvGetConfiguration ns;
          EvShowPickerDialog items "Initialize Deno Project"] ++ history w
    /\ ed_config (editor w1)
       = if chosen
         then <[("prettier", "disableLanguages") := languages]> written
         else written.
Proof.
  intros items ns lint unstable languages chosen written Hpick.
  subst items ns lint unstable languages chosen written.
  unfold initializeWorkspace, window_showPickerDialog, extensions_all, bind.
  cbn -[checkTSServer]. rewrite Hpick. cbn -[checkTSServer].
  destruct (includes settings "Disable coc-prettier for current project?");
    cbn -[checkTSServer].
  all: match goal with
       | |- context [checkTSServer ?W] =>
           exists W; pose proof (checkTSServer_outcome W) as Ho;
           unfold outcome, after in *;
           destruct (checkTSServer W) as [r w2]; simpl in Ho; subst r
       end.
  all: repeat split.
Qed.

Lemma checkTSServer_history_calls (w : World) :
  history (after checkTSServer w) = rev (calls checkTSServer w) ++ history w.
Proof.
  destruct (checkTSServer_history w) as (a & b & q & Hq).
  rewrite (calls_history checkTSServer w (rev (q ++ [a; b]))).
  - rewrite rev_involutive, Hq, <- app_assoc. done.
  - rewrite rev_involutive, Hq, <- app_assoc. done.
Qed.

Lemma initializeWorkspace_answered_calls (I : Imports) (w : World)
    (settings : list string) :
  let items :=
    if bool_decide ("coc-prettier" ∈ ed_extensions (editor w))
    then ["Enable Deno linting?"; "Enable Deno unstable APIs?";
          "Disable coc-prettier for current project?"]
    else ["Enable Deno linting?"; "Enable Deno unstable APIs?"] in
  let ns := EXTENSION_NS I in
  let lint := VBool (includes settings "Enable Deno linting?") in
  let unstable := VBool (includes settings "Enable Deno unstable APIs?") in
  let languages := VArr [VStr "typescript"; VStr "javascript"] in
  let chosen := includes settings "Disable coc-prettier for current project?" in
  let written :=
    <[(ns, "unstable") := unstable]>
      (<[(ns, "lint") := lint]>
         (<[(ns, "enable") := VBool true]> (ed_config (editor w)))) in
  ed_picker (editor w) items "Initialize Deno Project" = inr (Some settings) ->
  exists w1,
    after (initializeWorkspace I) w = after checkTSServer w1
    /\ outcome (initializeWorkspace I) w = inr VUndefined
    /\ calls (initializeWorkspace I) w
       = [EvShowPickerDialog items "Initialize Deno Project";
          EvGetConfiguration ns;
          EvConfigUpdate ns "enable" (VBool true);
          EvConfigUpdate ns "lint" lint;
          EvConfigUpdate ns "unstable" unstable] ++
         (if chosen
          then [EvGetConfiguration "prettier";
                EvConfigUpdate "prettier" "disableLanguages" languages]
          else []) ++
         [EvShowMessage "Deno is now setup in this workspace."] ++
         calls checkTSServer w1
    /\ ed_config (editor w1)
       = if chosen
         then <[("prettier", "disableLanguages") := languages]> written
         else written.
Proof.
  intros items ns lint unstable languages chosen written Hpick.
  destruct (initializeWorkspace_answered I w settings Hpick)
    as (w1 & Hrun & Hh & Hcfg).
  exists w1. split; [unfold after at 1; by rewrite Hrun|].
  split; [unfold outcome; by rewrite Hrun|]. split; [|exact Hcfg].
  apply calls_history. unfold after at 1. rewrite Hrun. cbn [snd].
  rewrite checkTSServer_history_calls, Hh.
  fold items ns lint unstable languages chosen.
  destruct chosen; rewrite !app_assoc, rev_app_distr, <- !app_assoc;
    reflexivity.
Qed.

(** X15.  Whatever the user does with it, the first call of
    Initialize-Workspace is the picker titled [Initialize Deno Project];
    it offers linting and the unstable APIs, and the third choice, to
    disable coc-prettier, exactly when an extension with the id
    [coc-prettier] is installed. *)
Theorem initializeWorkspace_offer (I : Imports) (w : World) :
  exists items rest,
    calls (initializeWorkspace I) w
    = EvShowPickerDialog items "Initialize Deno Project" :: rest
    /\ items
       = ["Enable Deno linting?"; "Enable Deno unstable APIs?"] ++
         (if bool_decide ("coc-prettier" ∈ ed_extensions (editor w))
          then ["Disable coc-prettier for current project?"] else []).
Proof.
  set (items := if bool_decide ("coc-prettier" ∈ ed_extensions (editor w))
                then ["Enable Deno linting?"; "Enable Deno unstable APIs?";
                      "Disable coc-prettier for current project?"]
                else ["Enable Deno linting?"; "Enable Deno unstable APIs?"]).
  assert (items
          = ["Enable Deno linting?"; "Enable Deno unstable APIs?"] ++
            (if bool_decide ("coc-prettier" ∈ ed_extensions (editor w))
             then ["Disable coc-prettier for current project?"] else []))
    as Hitems by (unfold items; by destruct (bool_decide _)).
  exists items.
  destruct (ed_picker (editor w) items "Initialize Deno Project")
    as [e|[settings|]] eqn:Hpick.
  - exists []. split; [|done]. apply calls_history.
    unfold after, initializeWorkspace, window_showPickerDialog,
      extensions_all, bind.
    cbn -[checkTSServer]. fold items. by rewrite Hpick.
  - destruct (initializeWorkspace_answered_calls I w settings Hpick)
      as (w1 & _ & _ & Hcalls & _).
    eexists. split; [|done]. rewrite Hcalls. reflexivity.
  - exists []. split; [|done]. apply calls_history.
    unfold after, initializeWorkspace, window_showPickerDialog,
      extensions_all, bind.
    cbn -[checkTSServer]. fold items. by rewrite Hpick.
Qed.

(** X16.  When the user answers the picker with [settings], the calls of
    Initialize-Workspace are, in this order: the picker; the configuration
    of the extension and the writes of [enable] as [true], of [lint] and of
    [unstable], each [true] exactly when its choice is among [settings];
    the configuration [prettier] and the write of [disableLanguages] as
    [typescript] and [javascript], exactly when that choice is among
    [settings]; the message; and the calls of the TSServer check. *)
Theorem initializeWorkspace_answered_trace (I : Imports) (w : World)
    (settings : list string) :
  let items :=
    if bool_decide ("coc-prettier" ∈ ed_extensions (editor w))
    then ["Enable Deno linting?"; "Enable Deno unstable APIs?";
          "Disable coc-prettier for current project?"]
    else ["Enable Deno linting?"; "Enable Deno unstable APIs?"] in
  let ns := EXTENSION_NS I in
  ed_picker (editor w) items "Initialize Deno Project" = inr (Some settings) ->
  exists w1,
    calls (initializeWorkspace I) w
    = [EvShowPickerDialog items "Initialize Deno Project";
       EvGetConfiguration ns;
       EvConfigUpdate ns "enable" (VBool true);
       EvConfigUpdate ns "lint"
         (VBool (bool_decide ("Enable Deno linting?" ∈ settings)));
       EvConfigUpdate ns "unstable"
         (VBool (bool_decide ("Enable Deno unstable APIs?" ∈ settings)))] ++
      (if bool_decide ("Disable coc-prettier for current project?" ∈ settings)
       then [EvGetConfiguration "prettier";
             EvConfigUpdate "prettier" "disableLanguages"
               (VArr [VStr "typescript"; VStr "javascript"])]
       else []) ++
      [EvShowMessage "Deno is now setup in this workspace."] ++
      calls checkTSServer w1
    /\ after (initializeWorkspace I) w = after checkTSServer w1.
Proof.
  intros items ns Hpick.
  destruct (initializeWorkspace_answered_calls I w settings Hpick)
    as (w1 & Hafter & _ & Hcalls & _).
  by exists w1.
Qed.

(** Two keys differ by their second component. *)
Ltac pair_ne :=
  let H := fresh in intros H; injection H; intros; discriminate.

Lemma checkTSServer_frame (w : World) (k : string * string) :
  k ≠ ("tsserver", "enable") ->
  ed_config (editor (after checkTSServer w)) !! k = ed_config (editor w) !! k.
Proof.
  intros Hk. unfold after. rewrite checkTSServer_run. cbv zeta.
  destruct (truthy _); cbn [snd editor ed_config set_config]; [|done].
  by rewrite lookup_insert_ne.
Qed.

(** X17.  After Initialize-Workspace with the picker answered, the
    configuration holds [lint] and [unstable] of the extension as the
    booleans of the two choices, [disableLanguages] of [prettier] as
    [typescript] and [javascript] when that choice was made, and an
    [enable] of [tsserver] that does not count as true; and [enable] of the
    extension is [true], provided the section of the extension is not
    [tsserver] itself. *)
Theorem initializeWorkspace_final_configuration (I : Imports) (w : World)
    (settings : list string) :
  let items :=
    if bool_decide ("coc-prettier" ∈ ed_extensions (editor w))
    then ["Enable Deno linting?"; "Enable Deno unstable APIs?";
          "Disable coc-prettier for current project?"]
    else ["Enable Deno linting?"; "Enable Deno unstable APIs?"] in
  let ns := EXTENSION_NS I in
  let cfg := ed_config (editor (after (initializeWorkspace I) w)) in
  ed_picker (editor w) items "Initialize Deno Project" = inr (Some settings) ->
  cfg !! (ns, "lint")
  = Some (VBool (bool_decide ("Enable Deno linting?" ∈ settings)))
  /\ cfg !! (ns, "unstable")
     = Some (VBool (bool_decide ("Enable Deno unstable APIs?" ∈ settings)))
  /\ ("Disable coc-prettier for current project?" ∈ settings ->
      cfg !! ("prettier", "disableLanguages")
      = Some (VArr [VStr "typescript"; VStr "javascript"]))
  /\ truthy (default VUndefined (cfg !! ("tsserver", "enable"))) = false
  /\ (ns ≠ "tsserver" -> cfg !! (ns, "enable") = Some (VBool true)).
Proof.
  intros items ns cfg Hpick.
  destruct (initializeWorkspace_answered_calls I w settings Hpick)
    as (w1 & Hafter & _ & _ & Hcfg).
  subst cfg. rewrite Hafter. fold ns in Hcfg.
  unfold includes in Hcfg.
  assert (forall k, k ≠ ("tsserver", "enable") ->
            ed_config (editor (after checkTSServer w1)) !! k
            = (if bool_decide
                    ("Disable coc-prettier for current project?" ∈ settings)
               then <[("prettier", "disableLanguages") :=
                      VArr [VStr "typescript"; VStr "javascript"]]>
               else id)
                (<[(ns, "unstable") :=
                   VBool (bool_decide ("Enable Deno unstable APIs?" ∈ settings))]>
                   (<[(ns, "lint") :=
                      VBool (bool_decide ("Enable Deno linting?" ∈ settings))]>
                      (<[(ns, "enable") := VBool true]>
                         (ed_config (editor w))))) !! k) as Hk.
  { intros k Hne. rewrite checkTSServer_frame, Hcfg by done.
    by destruct (bool_decide
                   ("Disable coc-prettier for current project?" ∈ settings)). }
  split; [|split; [|split; [|split]]].
  - rewrite Hk by pair_ne.
    destruct (bool_decide
                ("Disable coc-prettier for current project?" ∈ settings));
      unfold id; repeat (rewrite lookup_insert_ne by pair_ne);
      by rewrite lookup_insert_eq.
  - rewrite Hk by pair_ne.
    destruct (bool_decide
                ("Disable coc-prettier for current project?" ∈ settings));
      unfold id; repeat (rewrite lookup_insert_ne by pair_ne);
      by rewrite lookup_insert_eq.
  - intros Hin. rewrite Hk by pair_ne.
    rewrite bool_decide_true by done. by rewrite lookup_insert_eq.
  - apply checkTSServer_settles.
  - intros Hns. rewrite Hk by (intros [= ?]; done).
    destruct (bool_decide
                ("Disable coc-prettier for current project?" ∈ settings));
      unfold id; repeat (rewrite lookup_insert_ne by pair_ne);
      by rewrite lookup_insert_eq.
Qed.

(** X18.  When the picker itself fails, Initialize-Workspace fails with
    that exception: the picker is its only call, nothing is written and
    the TSServer check is not run. *)
Theorem initializeWorkspace_picker_failure (I : Imports) (w : World) (e : exn) :
  ed_picker (editor w)
    (if bool_decide ("coc-prettier" ∈ ed_extensions (editor w))
     then ["Enable Deno linting?"; "Enable Deno unstable APIs?";
           "Disable coc-prettier for current project?"]
     else ["Enable Deno linting?"; "Enable Deno unstable APIs?"])
    "Initialize Deno Project" = inl e ->
  outcome (initializeWorkspace I) w = inl e
  /\ editor (after (initializeWorkspace I) w) = editor w
  /\ exists items,
       calls (initializeWorkspace I) w
       = [EvShowPickerDialog items "Initialize Deno Project"].
Proof.
  intros Hpick.
  assert (exists items,
             initializeWorkspace I w
             = (inl e, record (EvShowPickerDialog items
                                 "Initialize Deno Project") w))
    as [items Hrun].
  { eexists.
    unfold initializeWorkspace, window_showPickerDialog, extensions_all, bind.
    cbn -[checkTSServer]. rewrite Hpick. reflexivity. }
  split; [unfold outcome; by rewrite Hrun|].
  split; [unfold after; by rewrite Hrun|].
  exists items. apply calls_history. unfold after. by rewrite Hrun.
Qed.

(** *** The TSServer check, for every value of the setting *)

(** X19.  The check acts on the truth value of [enable], whatever its
    type: on a value that counts as true (the boolean [true], a non-empty
    string, a number other than zero, an array, an object) it writes
    [false] and issues [CocRestart]; on any other value, and without a
    value, it writes nothing and issues no command.  In both cases every
    other setting is left as it was. *)
Theorem checkTSServer_truth_value (w : World) :
  let v := default VUndefined (ed_config (editor w) !! ("tsserver", "enable")) in
  (truthy v = true ->
   ed_config (editor (after checkTSServer w))
   = <[("tsserver", "enable") := VBool false]> (ed_config (editor w))
   /\ effects (calls checkTSServer w)
      = [EvConfigUpdate "tsserver" "enable" (VBool false);
         EvNvimCommand "CocRestart" true])
  /\ (truthy v = false ->
      editor (after checkTSServer w) = editor w
      /\ effects (calls checkTSServer w) = [])
  /\ forall k, k ≠ ("tsserver", "enable") ->
       ed_config (editor (after checkTSServer w)) !! k
       = ed_config (editor w) !! k.
Proof.
  intros v. subst v. split; [|split].
  - intros Hv. rewrite checkTSServer_calls. unfold after.
    rewrite checkTSServer_run. cbv zeta. by rewrite Hv.
  - intros Hv. rewrite checkTSServer_calls. unfold after.
    rewrite checkTSServer_run. cbv zeta. by rewrite Hv.
  - apply checkTSServer_frame.
Qed.

(** *** The further properties at concrete worlds *)

(** X1 for the cache command, with terminal [0] stored. *)
Lemma only_test_touches_terminals_witness :
  terminal (perform posix (CmdCache (mkContext 0) (mkClient 0))
              (world_with_terminal empty_config)) = Some 0.
Proof.
  apply (only_test_touches_terminals posix (CmdCache (mkContext 0) (mkClient 0))
           (world_with_terminal empty_config)).
  reflexivity.
Defined.

(** X2 for the test command. *)
Lemma only_setup_writes_witness :
  editor (perform posix (CmdTest "file:///a/b.ts" "my test")
            (world_with_terminal cache_config))
  = example_editor cache_config.
Proof.
  apply (only_setup_writes posix (CmdTest "file:///a/b.ts" "my test")
           (world_with_terminal cache_config)).
  reflexivity.
Defined.

(** X3 for Initialize-Workspace. *)
Lemma only_client_handlers_reach_server_witness :
  Forall (fun e => client_event e = false)
    (calls_of posix CmdInitializeWorkspace
       (initial_world (prettier_editor (Some [])))).
Proof.
  apply (only_client_handlers_reach_server posix CmdInitializeWorkspace
           (initial_world (prettier_editor (Some [])))).
  reflexivity.
Defined.

(** X4 for a test, the cache command and the same test again. *)
Lemma single_live_terminal_any_handlers_witness :
  live (history (perform_all posix
                   [mkStep (example_editor cache_config)
                      (CmdTest "file:///a/b.ts" "my test");
                    mkStep (example_editor cache_config)
                      (CmdCache (mkContext 0) (mkClient 0));
                    mkStep (example_editor cache_config)
                      (CmdTest "file:///a/b.ts" "my test")]
                   (initial_world (example_editor cache_config))))
  = [1]
  /\ 0 ∈ disposed (history (perform_all posix
                   [mkStep (example_editor cache_config)
                      (CmdTest "file:///a/b.ts" "my test");
                    mkStep (example_editor cache_config)
                      (CmdCache (mkContext 0) (mkClient 0));
                    mkStep (example_editor cache_config)
                      (CmdTest "file:///a/b.ts" "my test")]
                   (initial_world (example_editor cache_config)))).
Proof.
  destruct (single_live_terminal_any_handlers posix
              [mkStep (example_editor cache_config)
                 (CmdTest "file:///a/b.ts" "my test");
               mkStep (example_editor cache_config)
                 (CmdCache (mkContext 0) (mkClient 0));
               mkStep (example_editor cache_config)
                 (CmdTest "file:///a/b.ts" "my test")]
              (example_editor cache_config)) as (_ & Hl & Hd).
  split.
  - rewrite Hl. vm_compute. reflexivity.
  - apply Hd.
    + vm_compute. right. left.
    + vm_compute. discriminate.
Defined.

(** X6 with [codeLens.testArgs] the string [-A] and an import map. *)
Lemma test_arguments_witness :
  exists cl,
    outcome (test_command posix "file:///a/b.ts" "my test")
      (initial_world (example_editor string_args_config)) = inr cl
    /\ cl_bin cl = VStr "deno"
    /\ cl_args cl
       = [VStr "test"; VStr "-"; VStr "A"; VStr "--import-map";
          VStr "./map.json"; VStr "--filter";
          VStr (dquote +:+ "my test" +:+ dquote); VStr "/a/b.ts"].
Proof.
  apply (test_arguments posix "file:///a/b.ts" "my test"
           (initial_world (example_editor string_args_config))
           [VStr "-"; VStr "A"]
           (mkUri "file" EmptyString "/a/b.ts" EmptyString EmptyString));
    vm_compute; reflexivity.
Defined.

(** X7 with [codeLens.testArgs] a number, and with a URI that is not a
    file URI. *)
Lemma test_configuration_errors_witness :
  (exists msg,
      outcome (test posix "file:///a/b.ts" "my test")
        (world_with_terminal malformed_config) = inl (TypeError msg))
  /\ outcome (test posix "http://x" "my test")
       (world_with_terminal empty_config)
     = inl (UriError "not a file URI").
Proof.
  split.
  - apply (proj1 (test_configuration_errors posix "file:///a/b.ts" "my test"
                    (world_with_terminal malformed_config)) (VNum "3"));
      vm_compute; reflexivity.
  - apply (proj2 (test_configuration_errors posix "http://x" "my test"
                    (world_with_terminal empty_config))
             [] (UriError "not a file URI"));
      vm_compute; reflexivity.
Defined.

(** X8 with terminal [0] stored and a host that cannot open another. *)
Lemma test_create_failure_witness :
  outcome (test posix "file:///a/b.ts" "my test")
    (set_editor (no_terminal_editor empty_config)
       (world_with_terminal empty_config))
  = inl (HostError "cannot open a terminal")
  /\ terminal (after (test posix "file:///a/b.ts" "my test")
                 (set_editor (no_terminal_editor empty_config)
                    (world_with_terminal empty_config))) = None.
Proof.
  destruct (test_create_failure posix "file:///a/b.ts" "my test"
              (set_editor (no_terminal_editor empty_config)
                 (world_with_terminal empty_config))
              {| cl_env := None;
                 cl_bin := VStr "deno";
                 cl_args := [VStr "test"; VStr "--filter";
                             VStr (dquote +:+ "my test" +:+ dquote);
                             VStr "/a/b.ts"] |}
              (HostError "cannot open a terminal"))
    as (H1 & H2 & _); [vm_compute; reflexivity | reflexivity |].
  split; [exact H1 | exact H2].
Defined.

(** X9 on the POSIX host. *)
Lemma test_text_shape_witness :
  exists q,
    calls (test posix "file:///a/b.ts" "my test")
      (initial_world (example_editor coverage_config))
    = q ++ [EvSendText 0
              ("deno test --coverage --unstable --filter " +:+ dquote +:+
               "my test" +:+ dquote +:+ " /a/b.ts")]
    /\ Forall (fun e => forall t text, e ≠ EvSendText t text) q.
Proof.
  apply (test_text_shape posix "file:///a/b.ts" "my test"
           (initial_world (example_editor coverage_config))
           [VStr "--coverage"]
           (mkUri "file" EmptyString "/a/b.ts" EmptyString EmptyString));
    vm_compute; reflexivity.
Defined.

(** X10 without an active document. *)
Lemma cache_without_document_witness :
  calls (cache (mkContext 0) (mkClient 0)) (initial_world offline_editor)
  = [EvGetCurrentState].
Proof.
  apply (cache_without_document (mkContext 0) (mkClient 0)
           (initial_world offline_editor) (HostError "no document")).
  reflexivity.
Defined.

(** X11 without a language server. *)
Lemma status_request_failure_witness :
  outcome (status (mkContext 0) (mkClient 0)) (initial_world offline_editor)
  = inl (HostError "not connected").
Proof.
  apply (status_request_failure (mkContext 0) (mkClient 0)
           (initial_world offline_editor) (HostError "not connected")).
  reflexivity.
Defined.

(** X12 for a URI that the POSIX host rejects. *)
Lemma showReferences_rejected_uri_witness :
  showReferences posix "http://x" (mkPosition 0 0) []
    (initial_world (example_editor empty_config))
  = (inl (UriError "not a file URI"),
     initial_world (example_editor empty_config)).
Proof.
  apply (showReferences_rejected_uri posix "http://x" (mkPosition 0 0) []
           (initial_world (example_editor empty_config))
           (UriError "not a file URI")).
  - discriminate.
  - reflexivity.
Defined.

(** X13 for the three lines. *)
Lemma status_line_count_witness :
  exists lines,
    calls (status (mkContext 0) (mkClient 0))
      (initial_world (status_editor three_lines))
    = [EvSendRequest (mkClient 0) (virtualTextDocument "deno:/status.md");
       EvEchoLines lines]
    /\ length lines = 3.
Proof.
  destruct (status_line_count (mkContext 0) (mkClient 0)
              (initial_world (status_editor three_lines)) three_lines)
    as (lines & H1 & H2 & _); [reflexivity|].
  exists lines. split; [exact H1 | exact H2].
Defined.

(** X14 for two lines. *)
Lemma status_echoes_server_lines_witness :
  calls (status (mkContext 0) (mkClient 0))
    (initial_world
       (status_editor (String.concat (String newline EmptyString)
                         ["deno 1.8"; "ready"])))
  = [EvSendRequest (mkClient 0) (virtualTextDocument "deno:/status.md");
     EvEchoLines ["deno 1.8"; "ready"]].
Proof.
  apply (status_echoes_server_lines (mkContext 0) (mkClient 0)
           (initial_world
              (status_editor (String.concat (String newline EmptyString)
                                ["deno 1.8"; "ready"])))
           ["deno 1.8"; "ready"]).
  - discriminate.
  - repeat constructor.
  - reflexivity.
Defined.

(** X16 and X17 when the user chooses linting and to disable
    coc-prettier. *)
Lemma initializeWorkspace_answered_trace_witness :
  exists w1,
    calls (initializeWorkspace posix)
      (initial_world
         (prettier_editor
            (Some ["Enable Deno linting?";
                   "Disable coc-prettier for current project?"])))
    = [EvShowPickerDialog
         ["Enable Deno linting?"; "Enable Deno unstable APIs?";
          "Disable coc-prettier for current project?"]
         "Initialize Deno Project";
       EvGetConfiguration "deno";
       EvConfigUpdate "deno" "enable" (VBool true);
       EvConfigUpdate "deno" "lint" (VBool true);
       EvConfigUpdate "deno" "unstable" (VBool false);
       EvGetConfiguration "prettier";
       EvConfigUpdate "prettier" "disableLanguages"
         (VArr [VStr "typescript"; VStr "javascript"]);
       EvShowMessage "Deno is now setup in this workspace."] ++
      calls checkTSServer w1.
Proof.
  destruct (initializeWorkspace_answered_trace posix
              (initial_world
                 (prettier_editor
                    (Some ["Enable Deno linting?";
                           "Disable coc-prettier for current project?"])))
              ["Enable Deno linting?";
               "Disable coc-prettier for current project?"])
    as (w1 & H & _); [reflexivity|].
  exists w1. exact H.
Defined.

Lemma initializeWorkspace_final_configuration_witness :
  ed_config
    (editor (after (initializeWorkspace posix)
               (initial_world
                  (prettier_editor
                     (Some ["Enable Deno linting?";
                            "Disable coc-prettier for current project?"])))))
  !! ("deno", "enable") = Some (VBool true).
Proof.
  apply (initializeWorkspace_final_configuration posix
           (initial_world
              (prettier_editor
                 (Some ["Enable Deno linting?";
                        "Disable coc-prettier for current project?"])))
           ["Enable Deno linting?";
            "Disable coc-prettier for current project?"]).
  - reflexivity.
  - discriminate.
Defined.

(** X18 when the picker fails. *)
Lemma initializeWorkspace_picker_failure_witness :
  outcome (initializeWorkspace posix) (initial_world offline_editor)
  = inl (HostError "no picker").
Proof.
  apply (initializeWorkspace_picker_failure posix
           (initial_world offline_editor) (HostError "no picker")).
  reflexivity.
Defined.

(** X19 when [enable] is the string [yes]. *)
Lemma checkTSServer_truth_value_witness :
  effects (calls checkTSServer
             (initial_world (example_editor tsserver_yes_config)))
  = [EvConfigUpdate "tsserver" "enable" (VBool false);
     EvNvimCommand "CocRestart" true].
Proof.
  apply (proj1 (checkTSServer_truth_value
                  (initial_world (example_editor tsserver_yes_config)))).
  vm_compute. reflexivity.
Defined.
